(** * Exam scheduler: course aggregation and day/slot distribution

    A shallow embedding of [exam_scheduler.py] (class [ExamScheduler]):
    the two session aggregators [get_all_pre_mid_courses] and
    [get_all_post_mid_courses], and the distributor [schedule_exams].

    pandas tables are modelled row-wise: a row is a finite map from
    column names to cell texts, a missing cell (NaN) is an absent key.
    Python dictionaries keyed by day label are finite maps; the
    dictionary whose key order becomes the column order of a frame is an
    insertion-ordered association list. *)

From Stdlib Require Import ZArith Lia Ascii DecimalString.
From stdpp Require Import base option list strings gmap.

Open Scope string_scope.
Open Scope list_scope.
Open Scope nat_scope.

(** ** pandas tables *)

Module Pandas.

Record DataFrame := {
  columns : list string;
  rows : list (gmap string string)
}.

(** [pd.DataFrame()] *)
Definition empty_frame : DataFrame := {| columns := []; rows := [] |}.

(** [df.empty]: some axis has length zero. *)
Definition is_empty (df : DataFrame) : bool :=
  bool_decide (columns df = []) || bool_decide (rows df = []).

(** ['c' in df.columns] *)
Definition has_column (c : string) (df : DataFrame) : bool :=
  bool_decide (c ∈ columns df).

(** [df[c]] for a column that is present: one optional cell per row. *)
Definition column (c : string) (df : DataFrame) : list (option string) :=
  (λ r : gmap string string, r !! c) <$> rows df.

(** [Series.dropna()] *)
Definition dropna (s : list (option string)) : list string := omap id s.

(** [Series.astype(str)]: a missing cell becomes the text [nan]. *)
Definition astype_str (cell : option string) : string := default "nan" cell.

(** First occurrence per key, in order; [seen] holds the keys already
    met.  Both [Series.unique()] and
    [DataFrame.drop_duplicates(subset=..., keep='first')] are instances. *)
Fixpoint keep_first {A K : Type} `{EqDecision K}
    (key : A → K) (seen : list K) (l : list A) : list A :=
  match l with
  | [] => []
  | x :: l' =>
      if decide (key x ∈ seen) then keep_first key seen l'
      else x :: keep_first key (key x :: seen) l'
  end.

(** [Series.unique().tolist()] *)
Definition unique (l : list string) : list string := keep_first id [] l.

(** [df.drop_duplicates(subset=[c], keep='first').reset_index(drop=True)].
    A row has a cell under [c] or none: rows without one share a key
    here, and the first of them is kept.  No statement below rests on how
    many rows without a cell are kept. *)
Definition drop_duplicates (c : string) (df : DataFrame) : DataFrame :=
  {| columns := columns df;
     rows := keep_first (λ r : gmap string string, r !! c) [] (rows df) |}.

(** [df[mask]]: the rows the mask selects, same columns. *)
Definition select (mask : gmap string string → bool) (df : DataFrame)
    : DataFrame :=
  {| columns := columns df; rows := filter (λ r, mask r = true) (rows df) |}.

(** [df[c] = v]: a scalar broadcast to every row; a new column goes last. *)
Definition set_column (c v : string) (df : DataFrame) : DataFrame :=
  {| columns := if decide (c ∈ columns df) then columns df
                else columns df ++ [c];
     rows := (λ r : gmap string string, <[c := v]> r) <$> rows df |}.

(** Column labels of [pd.concat]: the union, in order of first appearance. *)
Definition union_columns (frames : list DataFrame) : list string :=
  keep_first id [] (frames ≫= columns).

(** [pd.concat(frames, ignore_index=True)] *)
Definition concat (frames : list DataFrame) : DataFrame :=
  {| columns := union_columns frames; rows := frames ≫= rows |}.

(** The identifiers a table carries: the present cells of its
    [Course Code] column, none when the column does not exist. *)
Definition course_codes (df : DataFrame) : list string :=
  if has_column "Course Code" df then dropna (column "Course Code" df)
  else [].

End Pandas.

Import Pandas.

(** ** Regular expressions of the department filter *)

Module Regex.

(** The patterns the aggregator builds are [^], the department name and
    [$].  The matcher covers the two anchors and literal characters;
    the operators of Python's [re] are not interpreted, so the
    statements about it are restricted to names without
    metacharacters ([plain]). *)
Inductive token := Bol | Eol | Lit (a : ascii).

Definition LF : ascii := "010"%char.

Definition token_of (a : ascii) : token :=
  if decide (a = "^"%char) then Bol
  else if decide (a = "$"%char) then Eol
  else Lit a.

Fixpoint compile (pattern : string) : list token :=
  match pattern with
  | EmptyString => []
  | String a rest => token_of a :: compile rest
  end.

(** [$] holds at the end of the text and just before a final line
    feed; [^] holds at its start only. *)
Definition at_end (s : string) : bool :=
  bool_decide (s = "") || bool_decide (s = String LF "").

Fixpoint match_here (ts : list token) (at_start : bool) (s : string) : bool :=
  match ts with
  | [] => true
  | Bol :: ts' => at_start && match_here ts' at_start s
  | Eol :: ts' => at_end s && match_here ts' at_start s
  | Lit a :: ts' =>
      match s with
      | String b s' => bool_decide (a = b) && match_here ts' false s'
      | EmptyString => false
      end
  end.

Fixpoint search_from (ts : list token) (at_start : bool) (s : string) : bool :=
  match_here ts at_start s ||
  match s with
  | String _ s' => search_from ts false s'
  | EmptyString => false
  end.

(** [re.search(pattern, s) is not None] *)
Definition search (pattern s : string) : bool :=
  search_from (compile pattern) true s.

Definition metacharacters : list ascii :=
  String.list_ascii_of_string ".^$*+?{}[]\|()".

Fixpoint plain (name : string) : Prop :=
  match name with
  | EmptyString => True
  | String a rest => (a ∉ metacharacters) ∧ plain rest
  end.

End Regex.

(** ** The session aggregator *)

(** [config.py] and [excel_loader.py] are separate modules; their
    constants and functions are parameters of the aggregator. *)
Record Config := {
  TARGET_SEMESTERS : list string;
  DEPARTMENTS : list string;
  PRE_MID : string;
  POST_MID : string
}.

Record ExcelLoader (Dfs : Type) := {
  get_semester_courses : Dfs → string → DataFrame;
  parse_ltpsc : DataFrame → DataFrame;
  divide_courses_by_session :
    DataFrame → string → DataFrame → DataFrame * DataFrame
}.
Arguments get_semester_courses {Dfs}.
Arguments parse_ltpsc {Dfs}.
Arguments divide_courses_by_session {Dfs}.

Inductive session := PreMid | PostMid.

(** [sem_courses_parsed['Department'].astype(str).str.contains(
      f"^{department}$", na=False, regex=True)] *)
Definition dept_mask (department : string) (r : gmap string string) : bool :=
  Regex.search ("^" +:+ department +:+ "$") (astype_str (r !! "Department")).

(** The department filter at the head of the inner loop. *)
Definition department_courses (sem_courses_parsed : DataFrame)
    (department : string) : DataFrame :=
  if has_column "Department" sem_courses_parsed
  then select (dept_mask department) sem_courses_parsed
  else sem_courses_parsed.

Section Aggregator.
Context {Dfs : Type} (loader : ExcelLoader Dfs) (config : Config) (dfs : Dfs).

(** The two aggregators differ only in the half of the session split
    they keep and in the session name of the tag. *)
Definition session_part (s : session) (parts : DataFrame * DataFrame)
    : DataFrame :=
  match s with PreMid => parts.1 | PostMid => parts.2 end.

Definition session_name (s : session) : string :=
  match s with PreMid => PRE_MID config | PostMid => POST_MID config end.

(** Body of [for department in DEPARTMENTS]: what it appends to the
    list of collected frames. *)
Definition department_frames (s : session) (semester : string)
    (sem_courses_parsed : DataFrame) (department : string)
    : list DataFrame :=
  let dept_courses := department_courses sem_courses_parsed department in
  if is_empty dept_courses then []
  else
    let session_courses :=
      session_part s
        (divide_courses_by_session loader dept_courses department
           sem_courses_parsed) in
    if is_empty session_courses then []
    else
      [set_column "Dept_Session" (department +:+ "_" +:+ session_name s)
         (set_column "Semester" semester session_courses)].

(** Body of [for semester in TARGET_SEMESTERS]. *)
Definition semester_frames (s : session) (semester : string)
    : list DataFrame :=
  let sem_courses_all := get_semester_courses loader dfs semester in
  if is_empty sem_courses_all then []
  else
    let sem_courses_parsed := parse_ltpsc loader sem_courses_all in
    if is_empty sem_courses_parsed then []
    else DEPARTMENTS config ≫= department_frames s semester sem_courses_parsed.

(** The list [all_pre_mid] (resp. [all_post_mid]) after both loops. *)
Definition collect (s : session) : list DataFrame :=
  TARGET_SEMESTERS config ≫= semester_frames s.

Definition get_all_session_courses (s : session) : DataFrame :=
  let all := collect s in
  if bool_decide (all = []) then empty_frame
  else
    let all_df := concat all in
    if has_column "Course Code" all_df
    then drop_duplicates "Course Code" all_df
    else all_df.

Definition get_all_pre_mid_courses : DataFrame :=
  get_all_session_courses PreMid.

Definition get_all_post_mid_courses : DataFrame :=
  get_all_session_courses PostMid.

End Aggregator.

(** What the course source gives the inner loop for a semester and a
    department: the half of the session split of the department's
    courses that the aggregator keeps. *)
Definition source_part {Dfs : Type} (loader : ExcelLoader Dfs) (dfs : Dfs)
    (s : session) (semester department : string) : DataFrame :=
  let sem_courses_parsed :=
    parse_ltpsc loader (get_semester_courses loader dfs semester) in
  session_part s
    (divide_courses_by_session loader
       (department_courses sem_courses_parsed department) department
       sem_courses_parsed).

(** The four [.empty] tests the loops pass before the frame of a
    semester and a department is appended: on the semester's courses,
    on the parsed courses, on the department's courses and on the
    session half. *)
Definition collected_pair {Dfs : Type} (loader : ExcelLoader Dfs) (dfs : Dfs)
    (s : session) (semester department : string) : bool :=
  let sem_courses_all := get_semester_courses loader dfs semester in
  let sem_courses_parsed := parse_ltpsc loader sem_courses_all in
  negb (is_empty sem_courses_all)
  && negb (is_empty sem_courses_parsed)
  && negb (is_empty (department_courses sem_courses_parsed department))
  && negb (is_empty (source_part loader dfs s semester department)).

(** A row after [session_courses['Semester'] = semester] and
    [session_courses['Dept_Session'] = f"{department}_{session}"]. *)
Definition tagged (config : Config) (s : session)
    (semester department : string) (r : gmap string string)
    : gmap string string :=
  <["Dept_Session" := department +:+ "_" +:+ session_name config s]>
    (<["Semester" := semester]> r).

(** The rows one pass of the inner loop adds to the combined table. *)
Definition contribution {Dfs : Type} (loader : ExcelLoader Dfs)
    (config : Config) (dfs : Dfs) (s : session)
    (semester department : string) : list (gmap string string) :=
  if collected_pair loader dfs s semester department
  then tagged config s semester department
         <$> rows (source_part loader dfs s semester department)
  else [].

(** ** The exam distributor *)

(** The exceptions the statements speak of: the division by an empty day
    list, and Python's invalid-argument error, which no path of
    [schedule_exams] raises. *)
Inductive exn := ZeroDivisionError | ValueError.

Inductive outcome (A : Type) :=
  | Returns (a : A)
  | Raises (e : exn).
Arguments Returns {A}.
Arguments Raises {A}.

Definition all_exam_days : list string :=
  ["Saturday"; "Monday"; "Tuesday"; "Wednesday"; "Thursday"; "Friday"; "Monday"].

(** Python's [l[:stop]]: a negative [stop] counts from the end. *)
Definition slice_to {A : Type} (stop : Z) (l : list A) : list A :=
  if (stop <? 0)%Z then take (Z.to_nat (Z.of_nat (length l) + stop)) l
  else take (Z.to_nat stop) l.

(** [{day: [] for day in exam_days}] *)
Definition empty_schedule (exam_days : list string) : gmap string (list string) :=
  foldl (λ d day, <[day := []]> d) ∅ exam_days.

(** [schedule.get(day, [])] *)
Definition bucket (schedule : gmap string (list string)) (day : string)
    : list string :=
  default [] (schedule !! day).

Record sched_state := {
  fn_schedule : gmap string (list string);
  an_schedule : gmap string (list string);
  course_idx : nat
}.

(** One slot loop, [for i in range(count)]: while the cursor is inside
    the list ([course_idx < total_courses], that is, the lookup succeeds)
    the identifier under it is appended to [schedule[day]].  The day is
    always a key of the dictionary, which was built from the same list
    of days. *)
Fixpoint assign (course_list : list string) (day : string) (count : nat)
    (schedule : gmap string (list string)) (course_idx : nat)
    : gmap string (list string) * nat :=
  match count with
  | 0 => (schedule, course_idx)
  | S count' =>
      match course_list !! course_idx with
      | Some c =>
          assign course_list day count'
            (alter (λ l, l ++ [c]) day schedule) (S course_idx)
      | None => assign course_list day count' schedule course_idx
      end
  end.

(** [courses_this_day] as the loop body computes it. *)
Definition courses_this_day (total_courses courses_per_day_base extra_courses
    day_idx course_idx : nat) : nat :=
  let n := courses_per_day_base in
  let n := if day_idx <? extra_courses then n + 1 else n in
  if (course_idx <? total_courses) && (n =? 0) then 1 else n.

(** Body of [for day_idx, day in enumerate(exam_days)]. *)
Definition day_step (course_list : list string)
    (courses_per_day_base extra_courses : nat)
    (st : sched_state) (day_idx : nat) (day : string) : sched_state :=
  let n := courses_this_day (length course_list) courses_per_day_base
             extra_courses day_idx (course_idx st) in
  let fn_count := (n + 1) / 2 in
  let an_count := n - fn_count in
  let '(fn, idx) := assign course_list day fn_count (fn_schedule st) (course_idx st) in
  let '(an, idx) := assign course_list day an_count (an_schedule st) idx in
  {| fn_schedule := fn; an_schedule := an; course_idx := idx |}.

Fixpoint day_loop (course_list : list string)
    (courses_per_day_base extra_courses : nat)
    (day_idx : nat) (days : list string) (st : sched_state) : sched_state :=
  match days with
  | [] => st
  | day :: rest =>
      day_loop course_list courses_per_day_base extra_courses (S day_idx) rest
        (day_step course_list courses_per_day_base extra_courses st day_idx day)
  end.

(** Initialisation of the two dictionaries and the distribution loop. *)
Definition distribute (course_list exam_days : list string)
    : outcome sched_state :=
  let total_courses := length course_list in
  if length exam_days =? 0 then Raises ZeroDivisionError
  else
    let courses_per_day_base := total_courses / length exam_days in
    let extra_courses := total_courses mod length exam_days in
    Returns
      (day_loop course_list courses_per_day_base extra_courses 0 exam_days
         {| fn_schedule := empty_schedule exam_days;
            an_schedule := empty_schedule exam_days;
            course_idx := 0 |}).

(** [data[k] = v] on an insertion-ordered dictionary. *)
Definition dict_set (k v : string) (data : list (string * string))
    : list (string * string) :=
  if decide (k ∈ data.*1)
  then (λ kv : string * string, if decide (kv.1 = k) then (k, v) else kv) <$> data
  else data ++ [(k, v)].

(** [', '.join([str(c) for c in courses])] if [courses] else [''] *)
Definition render (courses : list string) : string :=
  match courses with
  | [] => ""
  | _ => String.concat ", " courses
  end.

(** The dictionary [fn_data] (resp. [an_data]). *)
Definition session_data (exam_days : list string)
    (schedule : gmap string (list string)) : list (string * string) :=
  foldl (λ data day, dict_set day (render (bucket schedule day)) data)
    [] exam_days.

(** [pd.DataFrame(data)] for a dictionary of one-element lists. *)
Definition frame_of_data (data : list (string * string)) : DataFrame :=
  {| columns := data.*1;
     rows := match data with [] => [] | _ => [list_to_map data] end |}.

Section Distributor.
(** [random.shuffle]: the order it leaves the list in. *)
Context (shuffle : list string → list string).

Definition course_list_of (courses_df : DataFrame) : list string :=
  shuffle (unique (dropna (column "Course Code" courses_df))).

Definition schedule_exams (courses_df : DataFrame) (num_days : Z)
    : outcome (DataFrame * DataFrame) :=
  if is_empty courses_df then Returns (empty_frame, empty_frame)
  else if negb (has_column "Course Code" courses_df)
  then Returns (empty_frame, empty_frame)
  else
    let course_list := course_list_of courses_df in
    if length course_list =? 0 then Returns (empty_frame, empty_frame)
    else
      let exam_days := slice_to num_days all_exam_days in
      match distribute course_list exam_days with
      | Raises e => Raises e
      | Returns st =>
          Returns (frame_of_data (session_data exam_days (fn_schedule st)),
                   frame_of_data (session_data exam_days (an_schedule st)))
      end.

End Distributor.

(** What [_create_exam_sheet] writes under a day: the first row of the
    day's column, or the empty text when the frame lacks it.  The frames
    of [schedule_exams] have no missing cell, and the statements below
    read such frames only. *)
Definition sheet_cell (df : DataFrame) (day : string) : string :=
  if has_column day df && negb (is_empty df)
  then match rows df with
       | r :: _ => default "" (r !! day)
       | [] => ""
       end
  else "".

(** ** Closed forms of the distribution *)

(** [l[start : start + count]] *)
Definition slice {A : Type} (start count : nat) (l : list A) : list A :=
  take count (drop start l).

(** Courses the allocation rule gives the day at position [i] when
    [total] courses are spread over [days] days. *)
Definition day_share (total days i : nat) : nat :=
  total / days + (if i <? total mod days then 1 else 0).

(** Where the cursor stands when the loop reaches position [i]. *)
Definition day_start (total days i : nat) : nat :=
  i * (total / days) + i `min` (total mod days).

Definition fn_share (n : nat) : nat := (n + 1) / 2.

Definition an_share (n : nat) : nat := n - fn_share n.

(** The forenoon and afternoon slices of position [i]. *)
Definition fn_piece (course_list : list string) (days i : nat) : list string :=
  let total := length course_list in
  slice (day_start total days i) (fn_share (day_share total days i))
    course_list.

Definition an_piece (course_list : list string) (days i : nat) : list string :=
  let total := length course_list in
  slice (day_start total days i + fn_share (day_share total days i))
    (an_share (day_share total days i)) course_list.

(** What a label has collected after the first [k] positions: the pieces
    of the positions that carry it, in order. *)
Definition gathered (piece : nat → list string) (exam_days : list string)
    (k : nat) (day : string) : list string :=
  seq 0 k ≫= λ i, if decide (exam_days !! i = Some day) then piece i else [].

(** The buckets read in day order, forenoon before afternoon. *)
Definition reading (days : list string)
    (fn an : gmap string (list string)) : list string :=
  days ≫= λ day, bucket fn day ++ bucket an day.

(** The state of the loop after [k] positions: the cursor stands at
    [day_start], and under every label of [exam_days] lie the pieces of
    the positions below [k] that carry the label. *)
Definition distributed (course_list exam_days : list string) (k : nat)
    (st : sched_state) : Prop :=
  course_idx st = day_start (length course_list) (length exam_days) k
  ∧ ∀ day,
      fn_schedule st !! day
      = (if decide (day ∈ exam_days)
         then Some (gathered (fn_piece course_list (length exam_days))
                      exam_days k day)
         else None)
      ∧ an_schedule st !! day
        = (if decide (day ∈ exam_days)
           then Some (gathered (an_piece course_list (length exam_days))
                        exam_days k day)
           else None).

(** ** Sample inputs *)

(** A one-column table with one row per identifier. *)
Definition frame_of_codes (codes : list string) : DataFrame :=
  {| columns := ["Course Code"];
     rows := (λ c : string, {["Course Code" := c]}) <$> codes |}.

Definition seven_codes : list string :=
  ["C1"; "C2"; "C3"; "C4"; "C5"; "C6"; "C7"].

Definition ten_codes : list string :=
  ["C1"; "C2"; "C3"; "C4"; "C5"; "C6"; "C7"; "C8"; "C9"; "C10"].

Definition sample_config : Config :=
  {| TARGET_SEMESTERS := ["1"];
     DEPARTMENTS := ["CS"; "EE"];
     PRE_MID := "Pre-Mid";
     POST_MID := "Post-Mid" |}.

(** A course source that serves one table for every semester, parses
    nothing away and classifies every course as Pre-Mid. *)
Definition sample_loader : ExcelLoader DataFrame :=
  {| get_semester_courses := λ dfs _, dfs;
     parse_ltpsc := λ df, df;
     divide_courses_by_session := λ dept_courses _ _, (dept_courses, empty_frame) |}.

(** One course taught to two departments. *)
Definition shared_course_catalog : DataFrame :=
  {| columns := ["Course Code"; "Department"];
     rows := [ {["Course Code" := "MA101"; "Department" := "CS"]};
               {["Course Code" := "MA101"; "Department" := "EE"]} ] |}.

(** A catalog without a department column. *)
Definition undivided_catalog : DataFrame :=
  {| columns := ["Course Code"];
     rows := [ {["Course Code" := "MA101"]} ] |}.

(** A catalog whose first row has no identifier. *)
Definition malformed_catalog : DataFrame :=
  {| columns := ["Course Code"; "Department"];
     rows := [ {["Department" := "CS"]};
               {["Course Code" := "CS101"; "Department" := "CS"]} ] |}.

(** ** The loop, position by position *)

(** The state of the distribution loop of [schedule_exams] once its
    first [k] positions are done. *)
Definition loop_state (course_list exam_days : list string) (k : nat)
    : sched_state :=
  day_loop course_list
    (length course_list / length exam_days)
    (length course_list mod length exam_days)
    0 (take k exam_days)
    {| fn_schedule := empty_schedule exam_days;
       an_schedule := empty_schedule exam_days;
       course_idx := 0 |}.

(** ** The exam sheet *)

(** A date is counted in days from [start_date], Saturday 20 September
    2025; adding a [timedelta] adds days. *)
Definition start_date : nat := 0.

Definition is_leap (year : nat) : bool :=
  ((year mod 4 =? 0) && negb (year mod 100 =? 0)) || (year mod 400 =? 0).

Definition days_in_month (year month : nat) : nat :=
  match month with
  | 2 => if is_leap year then 29 else 28
  | 4 | 6 | 9 | 11 => 30
  | _ => 31
  end.

Definition next_day (date : nat * nat * nat) : nat * nat * nat :=
  let '(year, month, day) := date in
  if day <? days_in_month year month then (year, month, day + 1)
  else if month <? 12 then (year, month + 1, 1)
  else (year + 1, 1, 1).

(** Year, month and day of the date [offset] days after [start_date]. *)
Definition calendar_date (offset : nat) : nat * nat * nat :=
  Nat.iter offset next_day (2025, 9, 20).

Definition decimal (n : nat) : string :=
  NilZero.string_of_uint (Nat.to_uint n).

(** A number written with at least [width] digits. *)
Definition zero_padded (width n : nat) : string :=
  let text := decimal n in
  String.concat "" (replicate (width - String.length text) "0") +:+ text.

(** [date.strftime('%d-%m-%Y')] *)
Definition strftime (date : nat) : string :=
  let '(year, month, day) := calendar_date date in
  zero_padded 2 day +:+ "-" +:+ zero_padded 2 month +:+ "-"
  +:+ zero_padded 4 year.

(** [days_to_add] as the branches on [prev_day] set it. *)
Definition days_to_add (prev_day : string) (i : nat) : nat :=
  if decide (prev_day = "Saturday") then 2
  else if decide (prev_day = "Friday") then 3
  else if bool_decide (prev_day = "Monday") && (1 <? i) then 1
  else 1.

(** [enumerate(l)] *)
Definition enumerate {A : Type} (l : list A) : list (nat * A) := imap pair l.

(** Body of the loop that fills [day_to_date]; the state is the
    dictionary and [current_date]. *)
Definition date_step (exam_days : list string)
    (st : gmap string nat * nat) (entry : nat * string)
    : gmap string nat * nat :=
  let '(day_to_date, current_date) := st in
  let '(i, day) := entry in
  if i =? 0 then (<[day := start_date]> day_to_date, start_date)
  else
    let prev_day := default "" (exam_days !! (i - 1)) in
    let current_date := current_date + days_to_add prev_day i in
    (<[day := current_date]> day_to_date, current_date).

(** The loop after its first [k] days. *)
Definition date_state (exam_days : list string) (k : nat)
    : gmap string nat * nat :=
  foldl (date_step exam_days) (∅, start_date) (take k (enumerate exam_days)).

(** The dictionary [day_to_date] after the loop. *)
Definition day_to_date (exam_days : list string) : gmap string nat :=
  (foldl (date_step exam_days) (∅, start_date) (enumerate exam_days)).1.

(** The date row of a section: [day_to_date[day].strftime(...)] for
    every day; each day is a key of the dictionary. *)
Definition date_row (exam_days : list string) : list string :=
  "" :: ((λ day, from_option strftime "" (day_to_date exam_days !! day))
           <$> exam_days).

(** The date the loop computes at position [k], in days from
    [start_date]: the gaps after the days before it, added up. *)
Fixpoint date_offset (exam_days : list string) (k : nat) : nat :=
  match k with
  | 0 => 0
  | S k' =>
      date_offset exam_days k'
      + days_to_add (default "" (exam_days !! k')) (S k')
  end.

(** The four rows of the forenoon or afternoon section. *)
Definition section_rows (header : string) (df : DataFrame)
    (exam_days : list string) : list (list string) :=
  [ header :: replicate (length exam_days) "";
    "" :: exam_days;
    date_row exam_days;
    "Course Code" :: (sheet_cell df <$> exam_days) ].

Definition all_rows (fn_df an_df : DataFrame) (exam_days : list string)
    : list (list string) :=
  (section_rows "FN: 10:00 AM to 11:30 AM" fn_df exam_days
   ++ [replicate (length exam_days + 1) ""])
  ++ section_rows "AN: 03:00 PM to 04:30 PM" an_df exam_days.

(** [max(len(row) for row in all_rows) if all_rows else len(exam_days) + 1] *)
Definition max_cols (rows : list (list string)) (exam_days : list string)
    : nat :=
  match rows with
  | [] => length exam_days + 1
  | _ => max_list (length <$> rows)
  end.

Definition padded_rows (fn_df an_df : DataFrame) (exam_days : list string)
    : list (list string) :=
  let rows := all_rows fn_df an_df exam_days in
  (λ row, row ++ replicate (max_cols rows exam_days - length row) "")
    <$> rows.

(** [column_names[:max_cols]] *)
Definition column_names (width : nat) : list string :=
  take width ("" :: ((λ i, "Day_" +:+ decimal i) <$> seq 1 (width - 1))).

(** [pd.DataFrame(rows, columns=names)] *)
Definition frame_of_rows (names : list string) (rows : list (list string))
    : DataFrame :=
  {| columns := names;
     rows := (λ row, list_to_map (zip names row)) <$> rows |}.

Definition _create_exam_sheet (fn_df an_df : DataFrame)
    (exam_days : list string) : DataFrame :=
  frame_of_rows
    (column_names (max_cols (all_rows fn_df an_df exam_days) exam_days))
    (padded_rows fn_df an_df exam_days).

(** What [export_exam_timetable] hands to [to_excel] for one session:
    the formatted sheet when a frame of the schedule is not empty, else
    [pd.DataFrame(columns=exam_days)].  Writing the file, formatting the
    cells and the progress messages are left out. *)
Definition session_sheet (shuffle : list string → list string)
    (courses : DataFrame) : outcome DataFrame :=
  match schedule_exams shuffle courses 7 with
  | Raises e => Raises e
  | Returns (fn_df, an_df) =>
      Returns
        (if negb (is_empty fn_df) || negb (is_empty an_df)
         then _create_exam_sheet fn_df an_df all_exam_days
         else {| columns := all_exam_days; rows := [] |})
  end.

(** ** Facts about [keep_first] *)

Section KeepFirst.
Context {A K : Type} `{EqDecision K}.
Implicit Types (key : A → K) (seen : list K) (l : list A).

Lemma keep_first_elem key seen l x :
  x ∈ keep_first key seen l → x ∈ l ∧ key x ∉ seen.
Proof.
  revert seen. induction l as [|y l IH]; intros seen; simpl.
  - intros Hx. by apply elem_of_nil in Hx.
  - destruct (decide (key y ∈ seen)) as [Hin|Hnin].
    + intros Hx. destruct (IH _ Hx) as [? ?]. split; [by right|done].
    + intros Hx. apply elem_of_cons in Hx as [->|Hx].
      * split; [by left|done].
      * destruct (IH _ Hx) as [? Hk]. split; [by right|].
        intros ?. apply Hk. by right.
Qed.

Lemma keep_first_sublist key seen l : keep_first key seen l `sublist_of` l.
Proof.
  revert seen. induction l as [|y l IH]; intros seen; simpl; [done|].
  destruct (decide (key y ∈ seen)).
  - by apply sublist_cons.
  - by apply sublist_skip.
Qed.

Lemma keep_first_NoDup key seen l : NoDup (key <$> keep_first key seen l).
Proof.
  revert seen. induction l as [|y l IH]; intros seen; simpl.
  - constructor.
  - destruct (decide (key y ∈ seen)); [apply IH|].
    rewrite fmap_cons. constructor; [|apply IH].
    intros Hin. apply list_elem_of_fmap in Hin as (z & Hz & Hin).
    apply keep_first_elem in Hin as [_ Hk]. apply Hk. rewrite Hz. by left.
Qed.

Lemma keep_first_covers key seen l x :
  x ∈ l → key x ∉ seen → key x ∈ key <$> keep_first key seen l.
Proof.
  revert seen. induction l as [|y l IH]; intros seen Hx Hk; simpl.
  - by apply elem_of_nil in Hx.
  - apply elem_of_cons in Hx as [->|Hx].
    + rewrite decide_False by done. rewrite fmap_cons. by left.
    + destruct (decide (key y ∈ seen)); [by apply IH|].
      rewrite fmap_cons. destruct (decide (key x = key y)) as [->|Hne].
      * by left.
      * right. apply IH; [done|]. intros Hin.
        apply elem_of_cons in Hin as [?|?]; done.
Qed.

(** The row kept for a key is the first row of the input with that key. *)
Lemma keep_first_find key seen l k :
  k ∉ seen →
  snd <$> list_find (λ x, key x = k) (keep_first key seen l)
  = snd <$> list_find (λ x, key x = k) l.
Proof.
  revert seen. induction l as [|y l IH]; intros seen Hk; simpl; [done|].
  destruct (decide (key y ∈ seen)) as [Hin|Hnin].
  - case_decide as Hy; [by subst k|].
    rewrite IH by done.
    destruct (list_find _ l) as [[? ?]|]; done.
  - simpl. case_decide as Hy; [done|].
    assert (k ∉ key y :: seen) as Hk'.
    { intros Hin. apply elem_of_cons in Hin as [?|?]; done. }
    specialize (IH _ Hk').
    destruct (list_find _ (keep_first _ _ _)) as [[? ?]|];
      destruct (list_find _ l) as [[? ?]|]; simpl in *; congruence.
Qed.

End KeepFirst.

(** ** The anchored department pattern *)

Section RegexFacts.
Import Regex.

Lemma token_of_plain a : a ∉ metacharacters → token_of a = Lit a.
Proof.
  intros Ha. unfold token_of.
  destruct (decide (a = "^"%char)) as [->|_].
  { exfalso. apply Ha. vm_compute. set_solver. }
  destruct (decide (a = "$"%char)) as [->|_]; [|done].
  exfalso. apply Ha. vm_compute. set_solver.
Qed.

Lemma append_String a p q : String a p +:+ q = String a (p +:+ q).
Proof. reflexivity. Qed.

Lemma compile_app p q : compile (p +:+ q) = compile p ++ compile q.
Proof.
  induction p as [|a p IH]; [done|].
  rewrite append_String. simpl. by rewrite IH.
Qed.

Lemma search_from_bol ts s : search_from (Bol :: ts) false s = false.
Proof. induction s as [|a s IH]; simpl; [done|]. by rewrite IH. Qed.

Lemma match_here_plain d at_start s :
  plain d →
  match_here (compile d ++ [Eol]) at_start s
  = bool_decide (s = d) || bool_decide (s = d +:+ String LF "").
Proof.
  revert at_start s. induction d as [|a d IH]; intros at_start s Hd; simpl.
  - unfold at_end. by rewrite andb_true_r.
  - destruct Hd as [Ha Hd]. rewrite token_of_plain by done.
    rewrite append_String.
    destruct s as [|b s]; simpl; [done|].
    rewrite IH by done.
    destruct (decide (a = b)) as [->|Hab].
    + rewrite bool_decide_eq_true_2 by done. simpl.
      f_equal; apply bool_decide_ext; split; congruence.
    + rewrite bool_decide_eq_false_2 by done. simpl.
      rewrite !bool_decide_eq_false_2; [done| |]; congruence.
Qed.

(** On a name without metacharacters the pattern accepts the name
    itself and the name followed by one line feed, nothing else. *)
Lemma search_anchored d s :
  plain d →
  search ("^" +:+ d +:+ "$") s
  = bool_decide (s = d) || bool_decide (s = d +:+ String LF "").
Proof.
  intros Hd. unfold search.
  change ("^" +:+ d +:+ "$") with (String "^" (d +:+ "$")).
  cbn [compile]. rewrite compile_app.
  change (token_of "^") with Bol. change (compile "$") with [Eol].
  destruct s as [|b s]; cbn [search_from match_here andb].
  - rewrite orb_false_r. by apply match_here_plain.
  - rewrite search_from_bol, orb_false_r. by apply match_here_plain.
Qed.

End RegexFacts.

(** ** The department filter *)

Ltac not_listed :=
  let H := fresh in
  intros H; repeat (apply elem_of_cons in H as [H|H]; [discriminate H|]);
  by apply elem_of_nil in H.

Lemma elem_of_select mask df r :
  r ∈ rows (select mask df) ↔ mask r = true ∧ r ∈ rows df.
Proof. unfold select. simpl. by rewrite list_elem_of_filter. Qed.

(** C6 (amended): a table without a [Department] column passes every
    row to every department.  With the column, and for a department
    name free of regex metacharacters, a row whose department text is
    the name is passed, and a row that is passed has the name as its
    department text, possibly followed by one line feed; so a row
    tagged with a longer name that merely contains the filter name is
    never passed. *)
Theorem department_filter_anchored
    (department : string) (sem_courses_parsed : DataFrame)
    (r : gmap string string) :
  Regex.plain department →
  r ∈ rows sem_courses_parsed →
  (has_column "Department" sem_courses_parsed = false →
     r ∈ rows (department_courses sem_courses_parsed department))
  ∧ (has_column "Department" sem_courses_parsed = true →
       (astype_str (r !! "Department") = department →
          r ∈ rows (department_courses sem_courses_parsed department))
     ∧ (r ∈ rows (department_courses sem_courses_parsed department) →
          astype_str (r !! "Department") = department
          ∨ astype_str (r !! "Department")
            = department +:+ String Regex.LF "")).
Proof.
  intros Hplain Hr. unfold department_courses. split.
  - by intros ->.
  - intros ->. split.
    + intros Heq. apply elem_of_select. split; [|done].
      unfold dept_mask. rewrite search_anchored by done.
      by rewrite Heq, bool_decide_eq_true_2.
    + intros Hin. apply elem_of_select in Hin as [Hmask _].
      unfold dept_mask in Hmask. rewrite search_anchored in Hmask by done.
      apply orb_true_iff in Hmask as [H|H];
        apply bool_decide_eq_true_1 in H; [by left|by right].
Qed.

Lemma department_filter_anchored_witness :
  let r : gmap string string :=
    {["Course Code" := "MA101"; "Department" := "CS"]} in
  (has_column "Department" shared_course_catalog = false →
     r ∈ rows (department_courses shared_course_catalog "CS"))
  ∧ (has_column "Department" shared_course_catalog = true →
       (astype_str (r !! "Department") = "CS" →
          r ∈ rows (department_courses shared_course_catalog "CS"))
     ∧ (r ∈ rows (department_courses shared_course_catalog "CS") →
          astype_str (r !! "Department") = "CS"
          ∨ astype_str (r !! "Department") = "CS" +:+ String Regex.LF "")).
Proof.
  intros r.
  apply (department_filter_anchored "CS" shared_course_catalog r).
  - simpl. repeat split; not_listed.
  - unfold shared_course_catalog, r. simpl. apply list_elem_of_here.
Defined.

(** The filter ["CS"] rejects a course tagged ["CSE"]. *)
Lemma cs_filter_rejects_cse (sem_courses_parsed : DataFrame)
    (r : gmap string string) :
  has_column "Department" sem_courses_parsed = true →
  r !! "Department" = Some "CSE" →
  r ∉ rows (department_courses sem_courses_parsed "CS").
Proof.
  intros Hcol Hdept Hin. unfold department_courses in Hin.
  rewrite Hcol in Hin. apply elem_of_select in Hin as [Hmask _].
  unfold dept_mask in Hmask. rewrite Hdept in Hmask. by vm_compute in Hmask.
Qed.

(** The same filter accepts the name followed by a line feed. *)
Lemma cs_filter_accepts_trailing_line_feed :
  dept_mask "CS" {["Department" := "CS" +:+ String Regex.LF ""]} = true.
Proof. by vm_compute. Qed.

(** C6, counterexample: in a catalog without a [Department] column the
    course is passed to department ["CS"] although its row has no
    department field, and the aggregator returns it tagged for ["CS"]. *)
Lemma department_filter_counterexample :
  let r : gmap string string := {["Course Code" := "MA101"]} in
  r ∈ rows (department_courses undivided_catalog "CS")
  ∧ r !! "Department" ≠ Some "CS"
  ∧ get_all_pre_mid_courses sample_loader sample_config undivided_catalog
    = {| columns := ["Course Code"; "Semester"; "Dept_Session"];
         rows := [ {["Course Code" := "MA101"; "Semester" := "1";
                     "Dept_Session" := "CS_Pre-Mid"]} ] |}.
Proof.
  intros r. split; [|split].
  - unfold department_courses, undivided_catalog, r. simpl.
    apply list_elem_of_here.
  - by vm_compute.
  - by vm_compute.
Qed.

(** ** The aggregated session table *)

Lemma NoDup_dropna (s : list (option string)) : NoDup s → NoDup (dropna s).
Proof.
  unfold dropna. induction 1 as [|o s Ho _ IH]; simpl; [constructor|].
  destruct o as [c|]; simpl; [|done].
  constructor; [|done].
  intros Hin. apply list_elem_of_omap in Hin as (o & Hin & Heq).
  simpl in Heq. by subst o.
Qed.

Lemma elem_of_dropna_column c (l : list (gmap string string)) :
  c ∈ dropna ((λ r : gmap string string, r !! "Course Code") <$> l)
  ↔ ∃ r, r ∈ l ∧ r !! "Course Code" = Some c.
Proof.
  unfold dropna. rewrite list_elem_of_omap. split.
  - intros (o & Hin & Heq). simpl in Heq. subst o.
    apply list_elem_of_fmap in Hin as (r & Heq & Hin). eauto.
  - intros (r & Hin & Heq). exists (Some c). split; [|done].
    apply list_elem_of_fmap. eauto.
Qed.

(** At most one element per key in a list whose keys are distinct. *)
Lemma NoDup_key_count {A K : Type} (key : A → K) (k : K)
    `{!∀ x, Decision (key x = k)} (l : list A) :
  NoDup (key <$> l) → length (filter (λ x, key x = k) l) ≤ 1.
Proof.
  induction l as [|x l IH]; [simpl; lia|].
  rewrite fmap_cons. intros Hnd. apply NoDup_cons in Hnd as [Hx Hnd].
  rewrite filter_cons. destruct (decide (key x = k)) as [Hk|Hk].
  - simpl. destruct (filter (λ y, key y = k) l) as [|y f] eqn:Hf; [simpl; lia|].
    exfalso. assert (y ∈ filter (λ y, key y = k) l) as Hy by (rewrite Hf; left).
    apply list_elem_of_filter in Hy as [Hyk Hy].
    apply Hx. apply list_elem_of_fmap. exists y. split; [congruence|done].
  - by apply IH.
Qed.

Lemma bind_bind {A B C : Type} (f : A → list B) (g : B → list C) (l : list A) :
  (l ≫= f) ≫= g = l ≫= λ x, f x ≫= g.
Proof.
  induction l as [|x l IH]; [done|].
  by rewrite !bind_cons, bind_app, IH.
Qed.

Section AggregatorFacts.
Context {Dfs : Type} (loader : ExcelLoader Dfs) (config : Config) (dfs : Dfs).

Local Abbreviation collected s := (collect loader config dfs s).
Local Abbreviation aggregated s :=
  (get_all_session_courses loader config dfs s).

(** The combined table lists the rows semester by semester and, within
    a semester, department by department. *)
Lemma combined_rows_order s :
  rows (concat (collected s))
  = TARGET_SEMESTERS config ≫= λ semester,
      semester_frames loader config dfs s semester ≫= rows.
Proof. unfold concat, collect. simpl. by rewrite bind_bind. Qed.

Lemma aggregated_cases s :
  (collected s = [] ∧ aggregated s = empty_frame)
  ∨ (has_column "Course Code" (concat (collected s)) = true
     ∧ aggregated s = drop_duplicates "Course Code" (concat (collected s)))
  ∨ (has_column "Course Code" (concat (collected s)) = false
     ∧ aggregated s = concat (collected s)).
Proof.
  unfold get_all_session_courses.
  destruct (bool_decide (collected s = [])) eqn:Hall.
  - left. by apply bool_decide_eq_true_1 in Hall.
  - destruct (has_column "Course Code" (concat (collected s))); auto.
Qed.

Lemma bind_const_nil {A B : Type} (l : list A) :
  l ≫= (λ _, @nil B) = [].
Proof. induction l as [|x l IH]; [done|]. by rewrite bind_cons, IH. Qed.

Lemma bind_nil_l {A B : Type} (f : A → list B) : [] ≫= f = [].
Proof. done. Qed.

Lemma bind_lookup_split {A B : Type} (f : A → list B) (l : list A) i x :
  l !! i = Some x →
  l ≫= f = (take i l ≫= f) ++ f x ++ (drop (S i) l ≫= f).
Proof.
  intros Hl. rewrite <- (take_drop_middle l i x Hl) at 1.
  by rewrite bind_app, bind_cons.
Qed.

(** The first element of a key is kept. *)
Lemma keep_first_first {A K : Type} `{EqDecision K} (key : A → K)
    (seen : list K) (pre : list A) (x : A) (post : list A) :
  key x ∉ seen →
  (∀ y, y ∈ pre → key y ≠ key x) →
  x ∈ keep_first key seen (pre ++ x :: post).
Proof.
  revert seen. induction pre as [|y pre IH]; intros seen Hseen Hpre; simpl.
  - rewrite decide_False by done. by left.
  - assert (∀ z, z ∈ pre → key z ≠ key x) as Hpre'.
    { intros z Hz. apply Hpre. by right. }
    destruct (decide (key y ∈ seen)); [by apply IH|].
    right. apply IH; [|done].
    intros Hin. apply elem_of_cons in Hin as [Heq|Hin]; [|done].
    apply (Hpre y); [by left|done].
Qed.

(** Of the elements with one key, exactly the first is kept. *)
Lemma keep_first_filter_first {A K : Type} `{EqDecision K} (key : A → K)
    (k : K) `{!∀ x, Decision (key x = k)}
    (pre : list A) (x : A) (post : list A) :
  key x = k →
  (∀ y, y ∈ pre → key y ≠ k) →
  filter (λ y, key y = k) (keep_first key [] (pre ++ x :: post)) = [x].
Proof.
  intros Hx Hpre.
  assert (x ∈ filter (λ y, key y = k) (keep_first key [] (pre ++ x :: post)))
    as Hin.
  { apply list_elem_of_filter. split; [done|].
    apply keep_first_first; [apply not_elem_of_nil|].
    intros y Hy. rewrite Hx. by apply Hpre. }
  pose proof (NoDup_key_count key k (keep_first key [] (pre ++ x :: post))
                (keep_first_NoDup key [] _)) as Hlen.
  destruct (filter _ _) as [|a [|b f]]; simpl in Hlen.
  - by apply elem_of_nil in Hin.
  - by apply list_elem_of_singleton in Hin as ->.
  - lia.
Qed.

Lemma tagged_course_code s semester department (r : gmap string string) :
  tagged config s semester department r !! "Course Code" = r !! "Course Code".
Proof. unfold tagged. by rewrite !lookup_insert_ne. Qed.

Lemma elem_of_contribution s semester department r :
  r ∈ contribution loader config dfs s semester department
  ↔ collected_pair loader dfs s semester department = true
    ∧ ∃ r0, r0 ∈ rows (source_part loader dfs s semester department)
            ∧ r = tagged config s semester department r0.
Proof.
  unfold contribution.
  destruct (collected_pair loader dfs s semester department).
  - rewrite list_elem_of_fmap. split.
    + intros (r0 & -> & Hr0). eauto.
    + intros (_ & r0 & Hr0 & ->). eauto.
  - rewrite elem_of_nil. split; [done|]. by intros [? _].
Qed.

Lemma department_frames_rows s semester department :
  is_empty (get_semester_courses loader dfs semester) = false →
  is_empty (parse_ltpsc loader (get_semester_courses loader dfs semester))
  = false →
  department_frames loader config s semester
    (parse_ltpsc loader (get_semester_courses loader dfs semester))
    department ≫= rows
  = contribution loader config dfs s semester department.
Proof.
  intros Hall Hparsed.
  unfold department_frames, contribution, collected_pair, source_part.
  rewrite Hall, Hparsed. cbn [negb andb].
  destruct (is_empty (department_courses _ _)); [done|].
  destruct (is_empty (session_part s _)); [done|]. cbn [negb andb].
  rewrite bind_cons, bind_nil_l, app_nil_r. unfold set_column. cbn [rows].
  by rewrite <- list_fmap_compose.
Qed.

(** The combined table holds, semester by semester and within a
    semester department by department, the tagged rows of every pair
    that passes the four tests. *)
Lemma combined_rows_contributions s :
  rows (concat (collected s))
  = TARGET_SEMESTERS config ≫= λ semester,
      DEPARTMENTS config ≫= contribution loader config dfs s semester.
Proof.
  rewrite combined_rows_order. apply list_bind_ext; [|done].
  intros semester. unfold semester_frames.
  destruct (is_empty (get_semester_courses loader dfs semester)) eqn:Hall.
  { rewrite bind_nil_l. symmetry.
    etransitivity; [|apply (bind_const_nil (DEPARTMENTS config))].
    apply list_bind_ext; [|done]. intros department.
    unfold contribution, collected_pair. by rewrite Hall. }
  destruct (is_empty (parse_ltpsc loader _)) eqn:Hparsed.
  { rewrite bind_nil_l. symmetry.
    etransitivity; [|apply (bind_const_nil (DEPARTMENTS config))].
    apply list_bind_ext; [|done]. intros department.
    unfold contribution, collected_pair. by rewrite Hall, Hparsed. }
  rewrite bind_bind. apply list_bind_ext; [|done].
  intros department. by apply department_frames_rows.
Qed.

Lemma set_column_keeps_columns (c v x : string) (df : DataFrame) :
  x ∈ columns df → x ∈ columns (set_column c v df).
Proof.
  intros Hx. unfold set_column. cbn [columns].
  destruct (decide (c ∈ columns df)); [done|].
  apply elem_of_app. by left.
Qed.

(** A pair that passes the tests puts its frame, and so its columns,
    into the combined table. *)
Lemma collected_pair_columns s semester department x :
  semester ∈ TARGET_SEMESTERS config →
  department ∈ DEPARTMENTS config →
  collected_pair loader dfs s semester department = true →
  x ∈ columns (source_part loader dfs s semester department) →
  collected s ≠ [] ∧ x ∈ columns (concat (collected s)).
Proof.
  intros Hsem Hdept Hpass Hx.
  unfold collected_pair in Hpass.
  apply andb_true_iff in Hpass as [Hpass Hpart].
  apply andb_true_iff in Hpass as [Hpass Hfilter].
  apply andb_true_iff in Hpass as [Hall Hparsed].
  apply negb_true_iff in Hall, Hparsed, Hfilter, Hpart.
  assert (set_column "Dept_Session"
            (department +:+ "_" +:+ session_name config s)
            (set_column "Semester" semester
               (source_part loader dfs s semester department))
          ∈ collected s) as Hframe.
  { unfold collect. apply list_elem_of_bind. exists semester.
    split; [|done]. unfold semester_frames. rewrite Hall, Hparsed.
    apply list_elem_of_bind. exists department. split; [|done].
    unfold department_frames. rewrite Hfilter.
    unfold source_part in Hpart. rewrite Hpart.
    apply list_elem_of_here. }
  split.
  - intros Hnil. rewrite Hnil in Hframe. by apply elem_of_nil in Hframe.
  - unfold concat, union_columns. cbn [columns].
    rewrite <- (list_fmap_id (keep_first id [] _)).
    apply (keep_first_covers id [] _ x); [|apply not_elem_of_nil].
    apply list_elem_of_bind. eexists. split; [|exact Hframe].
    by do 2 apply set_column_keeps_columns.
Qed.

(** The returned table carries every identifier at most once. *)
Lemma aggregated_identifiers_NoDup s : NoDup (course_codes (aggregated s)).
Proof.
  destruct (aggregated_cases s) as [[_ ->]|[[Hc ->]|[Hc ->]]].
  - constructor.
  - unfold course_codes.
    assert (has_column "Course Code"
              (drop_duplicates "Course Code" (concat (collected s)))
            = true) as -> by done.
    apply NoDup_dropna. unfold column, drop_duplicates. simpl.
    apply keep_first_NoDup.
  - unfold course_codes. rewrite Hc. constructor.
Qed.

(** C5: let the configured department names be free of regex
    metacharacters.  The table an aggregator returns carries every
    identifier at most once.  Take the semester at position [i] of
    [TARGET_SEMESTERS] and the department at position [j] of
    [DEPARTMENTS], whose tables pass the four emptiness tests, and let
    [r0] be the first row with identifier [c] in what the course source
    gives for them.  If no earlier pair (an earlier semester, or the same
    semester and an earlier department) gives a row with [c], then the
    returned table has exactly one row with identifier [c]: the row [r0]
    tagged with that semester and that department.  So a course listed
    for two departments of one semester is returned once, for the
    department that comes first. *)
Theorem aggregated_first_source_wins (s : session) :
  Forall Regex.plain (DEPARTMENTS config) →
  let result := aggregated s in
  NoDup (course_codes result)
  ∧ ∀ i j semester department pre r0 post c,
      TARGET_SEMESTERS config !! i = Some semester →
      DEPARTMENTS config !! j = Some department →
      collected_pair loader dfs s semester department = true →
      has_column "Course Code" (source_part loader dfs s semester department)
      = true →
      rows (source_part loader dfs s semester department)
      = pre ++ r0 :: post →
      r0 !! "Course Code" = Some c →
      (∀ r, r ∈ pre → r !! "Course Code" ≠ Some c) →
      (∀ i' j' semester' department' r,
         i' < i ∨ (i' = i ∧ j' < j) →
         TARGET_SEMESTERS config !! i' = Some semester' →
         DEPARTMENTS config !! j' = Some department' →
         collected_pair loader dfs s semester' department' = true →
         r ∈ rows (source_part loader dfs s semester' department') →
         r !! "Course Code" ≠ Some c) →
      c ∈ course_codes result
      ∧ filter (λ r : gmap string string, r !! "Course Code" = Some c)
          (rows result)
        = [tagged config s semester department r0].
Proof.
  intros _ result. subst result.
  split; [apply aggregated_identifiers_NoDup|].
  intros i j semester department pre r0 post c
    Hi Hj Hpass Hcol Hrows Hc Hpre Hearlier.
  assert (semester ∈ TARGET_SEMESTERS config) as Hsem
    by (apply list_elem_of_lookup; eauto).
  assert (department ∈ DEPARTMENTS config) as Hdept
    by (apply list_elem_of_lookup; eauto).
  destruct (collected_pair_columns s semester department "Course Code"
              Hsem Hdept Hpass) as [Hne Hcode].
  { by apply bool_decide_eq_true_1 in Hcol. }
  assert (has_column "Course Code" (concat (collected s)) = true) as Hcomb
    by (by apply bool_decide_eq_true_2).
  destruct (aggregated_cases s) as [[Hnil _]|[[_ Hres]|[Hno _]]];
    [done| |congruence].
  rewrite Hres.
  assert (∃ before after,
            rows (concat (collected s))
            = before ++ tagged config s semester department r0 :: after
            ∧ ∀ r, r ∈ before → r !! "Course Code" ≠ Some c)
    as (before & after & Hsplit & Hbefore).
  { rewrite combined_rows_contributions.
    rewrite (bind_lookup_split _ _ i semester Hi).
    rewrite (bind_lookup_split _ (DEPARTMENTS config) j department Hj).
    assert (contribution loader config dfs s semester department
            = (tagged config s semester department <$> pre)
              ++ tagged config s semester department r0
                 :: (tagged config s semester department <$> post)) as ->.
    { unfold contribution. by rewrite Hpass, Hrows, fmap_app, fmap_cons. }
    match goal with
    | |- ∃ before after,
           ?A ++ (?B ++ (?P ++ ?x :: ?Q) ++ ?C) ++ ?E = _ ∧ _ =>
        exists (A ++ B ++ P), (Q ++ C ++ E)
    end.
    split; [by rewrite <- !app_assoc|].
    intros r Hr.
    apply elem_of_app in Hr as [Hr|Hr];
      [|apply elem_of_app in Hr as [Hr|Hr]].
    - apply list_elem_of_bind in Hr as (semester' & Hr & Hsem').
      apply elem_of_take in Hsem' as (i' & Hi' & Hlt).
      apply list_elem_of_bind in Hr as (department' & Hr & Hdept').
      apply list_elem_of_lookup in Hdept' as (j' & Hj').
      apply elem_of_contribution in Hr as (Hpass' & r' & Hr' & ->).
      rewrite tagged_course_code.
      apply (Hearlier i' j' semester' department'); auto.
    - apply list_elem_of_bind in Hr as (department' & Hr & Hdept').
      apply elem_of_take in Hdept' as (j' & Hj' & Hlt).
      apply elem_of_contribution in Hr as (Hpass' & r' & Hr' & ->).
      rewrite tagged_course_code.
      apply (Hearlier i j' semester department'); auto.
    - apply list_elem_of_fmap in Hr as (r' & -> & Hr').
      rewrite tagged_course_code. by apply Hpre. }
  assert (filter (λ r : gmap string string, r !! "Course Code" = Some c)
            (rows (drop_duplicates "Course Code" (concat (collected s))))
          = [tagged config s semester department r0]) as Hfilter.
  { unfold drop_duplicates. cbn [rows]. rewrite Hsplit.
    apply (keep_first_filter_first
             (λ r : gmap string string, r !! "Course Code") (Some c));
      [|done].
    by rewrite tagged_course_code. }
  split; [|done].
  unfold course_codes.
  assert (has_column "Course Code"
            (drop_duplicates "Course Code" (concat (collected s))) = true)
    as -> by exact Hcomb.
  unfold column. apply elem_of_dropna_column.
  exists (tagged config s semester department r0). split.
  - assert (tagged config s semester department r0
            ∈ filter (λ r : gmap string string, r !! "Course Code" = Some c)
                (rows (drop_duplicates "Course Code" (concat (collected s)))))
      as Hin by (rewrite Hfilter; apply list_elem_of_here).
    by apply list_elem_of_filter in Hin as [_ ?].
  - by rewrite tagged_course_code.
Qed.

End AggregatorFacts.

(** A course listed for ["CS"] and for ["EE"] in one semester is returned
    once, with the tag of the department that comes first. *)
Lemma shared_course_counted_once :
  get_all_pre_mid_courses sample_loader sample_config shared_course_catalog
  = {| columns := ["Course Code"; "Department"; "Semester"; "Dept_Session"];
       rows := [ {["Course Code" := "MA101"; "Department" := "CS";
                   "Semester" := "1"; "Dept_Session" := "CS_Pre-Mid"]} ] |}.
Proof. by vm_compute. Qed.

Lemma sample_departments_plain : Forall Regex.plain (DEPARTMENTS sample_config).
Proof. repeat constructor; not_listed. Qed.

Lemma aggregated_first_source_wins_witness :
  let r0 : gmap string string :=
    {["Course Code" := "MA101"; "Department" := "CS"]} in
  let result :=
    get_all_session_courses sample_loader sample_config shared_course_catalog
      PreMid in
  "MA101" ∈ course_codes result
  ∧ filter (λ r : gmap string string, r !! "Course Code" = Some "MA101")
      (rows result)
    = [tagged sample_config PreMid "1" "CS" r0].
Proof.
  intros r0 result.
  destruct (aggregated_first_source_wins sample_loader sample_config
              shared_course_catalog PreMid sample_departments_plain)
    as [_ Hfirst].
  apply (Hfirst 0 0 "1" "CS" [] r0 [] "MA101").
  - reflexivity.
  - reflexivity.
  - by vm_compute.
  - by vm_compute.
  - by vm_compute.
  - by vm_compute.
  - intros r Hr. by apply elem_of_nil in Hr.
  - intros i' j' semester' department' r [Hlt|[_ Hlt]]; lia.
Defined.

(** ** The guards of [schedule_exams] *)

Lemma unique_nil_inv (l : list string) : unique l = [] → l = [].
Proof. destruct l as [|x l]; [done|]. unfold unique. simpl. done. Qed.

Lemma unique_elem (l : list string) c : c ∈ unique l → c ∈ l.
Proof. intros Hc. by apply keep_first_elem in Hc as [? _]. Qed.

Lemma course_codes_empty_frame (df : DataFrame) :
  is_empty df = true → course_codes df = [].
Proof.
  unfold is_empty, course_codes, has_column, column. intros He.
  apply orb_true_iff in He as [He|He]; apply bool_decide_eq_true_1 in He;
    rewrite He.
  - rewrite bool_decide_eq_false_2; [done|]. apply not_elem_of_nil.
  - by destruct (bool_decide _).
Qed.

Section DistributorFacts.
Context (shuffle : list string → list string).
Hypothesis shuffle_perm : ∀ l, shuffle l ≡ₚ l.

Lemma shuffle_nil : shuffle [] = [].
Proof. apply Permutation_nil_r. by rewrite shuffle_perm. Qed.

Lemma shuffle_nil_inv l : shuffle l = [] → l = [].
Proof. intros H. apply Permutation_nil_r. by rewrite <- H, shuffle_perm. Qed.

Lemma schedule_exams_no_codes (courses_df : DataFrame) (num_days : Z) :
  course_codes courses_df = [] →
  schedule_exams shuffle courses_df num_days
  = Returns (empty_frame, empty_frame).
Proof.
  unfold course_codes, schedule_exams, course_list_of. intros Hc.
  destruct (is_empty courses_df); [done|].
  destruct (has_column "Course Code" courses_df); [|done]. simpl.
  rewrite Hc. change (unique []) with (@nil string).
  by rewrite shuffle_nil.
Qed.

Lemma schedule_exams_codes (courses_df : DataFrame) (num_days : Z) :
  course_codes courses_df ≠ [] →
  course_list_of shuffle courses_df ≠ []
  ∧ schedule_exams shuffle courses_df num_days
    = match distribute (course_list_of shuffle courses_df)
              (slice_to num_days all_exam_days) with
      | Raises e => Raises e
      | Returns st =>
          Returns
            (frame_of_data
               (session_data (slice_to num_days all_exam_days)
                  (fn_schedule st)),
             frame_of_data
               (session_data (slice_to num_days all_exam_days)
                  (an_schedule st)))
      end.
Proof.
  intros Hc.
  assert (is_empty courses_df = false) as He.
  { destruct (is_empty courses_df) eqn:He; [|done].
    by apply course_codes_empty_frame in He. }
  assert (course_list_of shuffle courses_df ≠ []) as Hl.
  { unfold course_list_of. intros Hs.
    apply shuffle_nil_inv, unique_nil_inv in Hs.
    apply Hc. unfold course_codes. rewrite Hs. by destruct (has_column _ _). }
  split; [done|].
  unfold schedule_exams. rewrite He.
  unfold course_codes in Hc.
  destruct (has_column "Course Code" courses_df); [|done]. simpl.
  destruct (course_list_of shuffle courses_df); done.
Qed.

End DistributorFacts.

(** C7: on an input with zero courses [schedule_exams] returns without
    raising, its two frames are the empty frame, and every day reads as
    the empty text in both of them. *)
Theorem schedule_exams_zero_courses
    (shuffle : list string → list string)
    (courses_df : DataFrame) (num_days : Z) :
  (∀ l, shuffle l ≡ₚ l) →
  course_codes courses_df = [] →
  ∃ fn_df an_df,
    schedule_exams shuffle courses_df num_days = Returns (fn_df, an_df)
    ∧ fn_df = empty_frame ∧ an_df = empty_frame
    ∧ ∀ day, sheet_cell fn_df day = "" ∧ sheet_cell an_df day = "".
Proof.
  intros Hperm Hc. exists empty_frame, empty_frame.
  split; [by apply schedule_exams_no_codes|]. done.
Qed.

Lemma schedule_exams_zero_courses_witness :
  ∃ fn_df an_df,
    schedule_exams reverse (frame_of_codes []) 7 = Returns (fn_df, an_df)
    ∧ fn_df = empty_frame ∧ an_df = empty_frame
    ∧ ∀ day, sheet_cell fn_df day = "" ∧ sheet_cell an_df day = "".
Proof.
  apply (schedule_exams_zero_courses reverse (frame_of_codes []) 7).
  - apply reverse_Permutation.
  - reflexivity.
Defined.

(** C10: a non-empty table that has no [Course Code] column, or whose
    rows all lack the identifier, makes [schedule_exams] return two empty
    frames without raising, exactly as the empty table does. *)
Theorem schedule_exams_without_identifiers
    (shuffle : list string → list string)
    (courses_df : DataFrame) (num_days : Z) :
  (∀ l, shuffle l ≡ₚ l) →
  is_empty courses_df = false →
  (has_column "Course Code" courses_df = false
   ∨ ∀ r, r ∈ rows courses_df → r !! "Course Code" = None) →
  schedule_exams shuffle courses_df num_days
  = Returns (empty_frame, empty_frame)
  ∧ schedule_exams shuffle courses_df num_days
    = schedule_exams shuffle empty_frame num_days.
Proof.
  intros Hperm _ Hmissing.
  assert (course_codes courses_df = []) as Hc.
  { unfold course_codes. destruct Hmissing as [->|Hrows]; [done|].
    destruct (has_column _ _); [|done].
    destruct (dropna (column "Course Code" courses_df)) as [|c l] eqn:Hd;
      [done|].
    assert (c ∈ dropna (column "Course Code" courses_df)) as Hin
      by (rewrite Hd; left).
    apply elem_of_dropna_column in Hin as (r & Hr & Hrc).
    rewrite (Hrows r Hr) in Hrc. done. }
  split; [by apply schedule_exams_no_codes|].
  by rewrite schedule_exams_no_codes.
Qed.

Lemma schedule_exams_without_identifiers_witness :
  let titles_only :=
    {| columns := ["Course Title"];
       rows := [ {["Course Title" := "Linear Algebra"]} ] |} in
  schedule_exams reverse titles_only 7 = Returns (empty_frame, empty_frame)
  ∧ schedule_exams reverse titles_only 7
    = schedule_exams reverse empty_frame 7.
Proof.
  intros titles_only.
  apply (schedule_exams_without_identifiers reverse titles_only 7).
  - apply reverse_Permutation.
  - reflexivity.
  - left. reflexivity.
Defined.

(** ** Negative day counts *)

Lemma slice_to_negative (n : Z) :
  (-7 < n < 0)%Z → slice_to n all_exam_days = slice_to (7 + n) all_exam_days.
Proof.
  intros Hn.
  assert (n = -1 ∨ n = -2 ∨ n = -3 ∨ n = -4 ∨ n = -5 ∨ n = -6)%Z
    as Hcases by lia.
  by repeat destruct Hcases as [->|Hcases]; [..|subst n].
Qed.

Lemma slice_to_below (n : Z) : (n ≤ -7)%Z → slice_to n all_exam_days = [].
Proof.
  intros Hn. unfold slice_to.
  assert ((n <? 0)%Z = true) as -> by lia.
  assert (Z.to_nat (Z.of_nat (length all_exam_days) + n) = 0) as ->; [|done].
  simpl length. lia.
Qed.

(** C8 (amended): [schedule_exams] does not validate [num_days].  For a
    negative [num_days] it never raises the invalid-argument error: an
    input without courses yields two empty frames; with at least one
    course, a value from -6 to -1 yields the schedule of [7 + num_days]
    days, and a value of -7 or below raises the division-by-zero
    error. *)
Theorem schedule_exams_negative_days
    (shuffle : list string → list string)
    (courses_df : DataFrame) (num_days : Z) :
  (∀ l, shuffle l ≡ₚ l) →
  (num_days < 0)%Z →
  schedule_exams shuffle courses_df num_days ≠ Raises ValueError
  ∧ (course_codes courses_df = [] →
       schedule_exams shuffle courses_df num_days
       = Returns (empty_frame, empty_frame))
  ∧ (course_codes courses_df ≠ [] → (-7 < num_days)%Z →
       schedule_exams shuffle courses_df num_days
       = schedule_exams shuffle courses_df (7 + num_days)
       ∧ ∃ fn_df an_df,
           schedule_exams shuffle courses_df num_days
           = Returns (fn_df, an_df))
  ∧ (course_codes courses_df ≠ [] → (num_days ≤ -7)%Z →
       schedule_exams shuffle courses_df num_days = Raises ZeroDivisionError).
Proof.
  intros Hperm Hneg.
  assert (course_codes courses_df ≠ [] → (-7 < num_days)%Z →
            ∃ fn_df an_df,
              schedule_exams shuffle courses_df num_days
              = Returns (fn_df, an_df)) as Hsched.
  { intros Hc Hn.
    destruct (schedule_exams_codes shuffle Hperm courses_df num_days Hc)
      as [_ ->].
    assert (num_days = -1 ∨ num_days = -2 ∨ num_days = -3 ∨ num_days = -4
            ∨ num_days = -5 ∨ num_days = -6)%Z as Hcases by lia.
    repeat destruct Hcases as [->|Hcases]; [..|subst num_days];
      unfold distribute; simpl; eauto. }
  assert (course_codes courses_df ≠ [] → (num_days ≤ -7)%Z →
            schedule_exams shuffle courses_df num_days
            = Raises ZeroDivisionError) as Hzero.
  { intros Hc Hn.
    destruct (schedule_exams_codes shuffle Hperm courses_df num_days Hc)
      as [_ ->].
    by rewrite slice_to_below. }
  split; [|split; [|split]].
  - destruct (decide (course_codes courses_df = [])) as [Hc|Hc].
    { by rewrite schedule_exams_no_codes. }
    destruct (decide (-7 < num_days)%Z) as [Hn|Hn].
    + destruct (Hsched Hc Hn) as (fn_df & an_df & ->). done.
    + rewrite Hzero by (done || lia). done.
  - by apply schedule_exams_no_codes.
  - intros Hc Hn. split; [|by apply Hsched].
    destruct (schedule_exams_codes shuffle Hperm courses_df num_days Hc)
      as [_ ->].
    destruct (schedule_exams_codes shuffle Hperm courses_df (7 + num_days) Hc)
      as [_ ->].
    by rewrite slice_to_negative by lia.
  - done.
Qed.

(** C8, counterexample: with [num_days = -1] and one course
    [schedule_exams] raises nothing and returns a six-day schedule. *)
Lemma schedule_exams_negative_days_counterexample :
  schedule_exams reverse (frame_of_codes ["CS101"]) (-1)
  = Returns
      ({| columns := ["Saturday"; "Monday"; "Tuesday"; "Wednesday";
                      "Thursday"; "Friday"];
          rows := [ {["Saturday" := "CS101"; "Monday" := ""; "Tuesday" := "";
                      "Wednesday" := ""; "Thursday" := ""; "Friday" := ""]} ] |},
       {| columns := ["Saturday"; "Monday"; "Tuesday"; "Wednesday";
                      "Thursday"; "Friday"];
          rows := [ {["Saturday" := ""; "Monday" := ""; "Tuesday" := "";
                      "Wednesday" := ""; "Thursday" := ""; "Friday" := ""]} ] |}).
Proof. by vm_compute. Qed.

Lemma schedule_exams_negative_days_witness :
  schedule_exams reverse (frame_of_codes seven_codes) (-2) ≠ Raises ValueError
  ∧ (course_codes (frame_of_codes seven_codes) = [] →
       schedule_exams reverse (frame_of_codes seven_codes) (-2)
       = Returns (empty_frame, empty_frame))
  ∧ (course_codes (frame_of_codes seven_codes) ≠ [] → (-7 < -2)%Z →
       schedule_exams reverse (frame_of_codes seven_codes) (-2)
       = schedule_exams reverse (frame_of_codes seven_codes) (7 + -2)
       ∧ ∃ fn_df an_df,
           schedule_exams reverse (frame_of_codes seven_codes) (-2)
           = Returns (fn_df, an_df))
  ∧ (course_codes (frame_of_codes seven_codes) ≠ [] → (-2 ≤ -7)%Z →
       schedule_exams reverse (frame_of_codes seven_codes) (-2)
       = Raises ZeroDivisionError).
Proof.
  apply (schedule_exams_negative_days reverse (frame_of_codes seven_codes) (-2)).
  - apply reverse_Permutation.
  - reflexivity.
Defined.

(** ** The distribution loop *)

Lemma share_split (n : nat) : fn_share n + an_share n = n.
Proof.
  unfold an_share, fn_share.
  pose proof (Nat.div_mod_eq (n + 1) 2) as Hdiv.
  pose proof (Nat.mod_upper_bound (n + 1) 2). lia.
Qed.

Lemma fn_an_balance (n : nat) :
  fn_share n = an_share n ∨ fn_share n = an_share n + 1.
Proof.
  unfold an_share, fn_share.
  pose proof (Nat.div_mod_eq (n + 1) 2) as Hdiv.
  pose proof (Nat.mod_upper_bound (n + 1) 2). lia.
Qed.

Section Allocation.
Context (total days : nat).
Hypothesis days_pos : 0 < days.

Lemma day_start_S k :
  day_start total days (S k) = day_start total days k + day_share total days k.
Proof using Type.
  clear days_pos.
  unfold day_start, day_share.
  destruct (Nat.ltb_spec k (total mod days)); lia.
Qed.

Lemma day_start_full : day_start total days days = total.
Proof using days_pos.
  unfold day_start.
  pose proof (Nat.div_mod_eq total days).
  pose proof (Nat.mod_upper_bound total days). lia.
Qed.

Lemma day_start_mono k : day_start total days k ≤ day_start total days (S k).
Proof using Type.
  clear days_pos. rewrite day_start_S. lia. Qed.

Lemma day_start_le_mono k j :
  k ≤ j → day_start total days k ≤ day_start total days j.
Proof using Type.
  clear days_pos.
  induction 1 as [|m _ IH]; [done|].
  etrans; [exact IH|]. apply day_start_mono.
Qed.

Lemma day_start_le k : k ≤ days → day_start total days k ≤ total.
Proof using days_pos.
  intros Hk. rewrite <- day_start_full at 2. by apply day_start_le_mono.
Qed.

(** The floor-up rule never fires: when the share of a day is zero the
    cursor has already reached the end of the list. *)
Lemma courses_this_day_share k :
  courses_this_day total (total / days) (total mod days) k
    (day_start total days k)
  = day_share total days k.
Proof using Type.
  clear days_pos.
  unfold courses_this_day, day_share.
  destruct (Nat.ltb_spec k (total mod days)) as [Hk|Hk].
  - replace (total / days + 1 =? 0) with false
      by (symmetry; apply Nat.eqb_neq; lia).
    by rewrite andb_false_r.
  - rewrite Nat.add_0_r.
    destruct (Nat.eqb_spec (total / days) 0) as [Hz|Hz];
      [|by rewrite andb_false_r].
    rewrite andb_true_r.
    replace (day_start total days k <? total) with false; [done|].
    symmetry. apply Nat.ltb_ge. unfold day_start.
    pose proof (Nat.div_mod_eq total days). rewrite Hz in *. lia.
Qed.

End Allocation.

Lemma length_slice {A : Type} (start count : nat) (l : list A) :
  start + count ≤ length l → length (slice start count l) = count.
Proof. intros H. unfold slice. rewrite length_take, length_drop. lia. Qed.

Lemma slice_sublist {A : Type} (start count : nat) (l : list A) :
  slice start count l `sublist_of` l.
Proof.
  unfold slice. etrans; [apply sublist_take|apply sublist_drop].
Qed.

Lemma alter_alter (f g : list string → list string) (day : string)
    (m : gmap string (list string)) :
  alter f day (alter g day m) = alter (f ∘ g) day m.
Proof.
  apply map_eq. intros j. destruct (decide (day = j)) as [->|Hne].
  - rewrite !lookup_alter_eq. by rewrite option_fmap_compose.
  - by rewrite !lookup_alter_ne.
Qed.

(** A slot loop appends one slice of the list and moves the cursor past it. *)
Lemma assign_slice course_list day count schedule idx :
  assign course_list day count schedule idx
  = (alter (λ l, l ++ slice idx count course_list) day schedule,
     idx + length (slice idx count course_list)).
Proof.
  revert schedule idx. induction count as [|n IH]; intros schedule idx; simpl.
  - unfold slice. rewrite take_0. simpl. rewrite Nat.add_0_r.
    f_equal. symmetry. apply alter_id. intros l _. apply app_nil_r.
  - destruct (course_list !! idx) as [c|] eqn:Hc.
    + rewrite IH. unfold slice. rewrite (drop_S _ _ _ Hc). simpl.
      f_equal; [|lia]. rewrite alter_alter. apply alter_ext.
      intros l _. simpl. by rewrite <- app_assoc.
    + rewrite IH. unfold slice. apply lookup_ge_None in Hc.
      rewrite !drop_ge by lia. by rewrite !take_nil.
Qed.

Lemma foldl_insert_lookup (days : list string)
    (m : gmap string (list string)) (day : string) :
  foldl (λ d day, <[day := []]> d) m days !! day
  = if decide (day ∈ days) then Some [] else m !! day.
Proof.
  revert m. induction days as [|d days IH]; intros m; simpl.
  - destruct (decide (day ∈ [])) as [Hin|_]; [|done].
    by apply elem_of_nil in Hin.
  - rewrite IH.
    destruct (decide (day ∈ days)) as [Hin|Hnin];
      destruct (decide (day ∈ d :: days)) as [Hin'|Hnin']; try done.
    + exfalso. apply Hnin'. by right.
    + apply elem_of_cons in Hin' as [->|?]; [|done]. apply lookup_insert_eq.
    + apply lookup_insert_ne. intros ->. apply Hnin'. by left.
Qed.

Lemma lookup_empty_schedule (exam_days : list string) (day : string) :
  empty_schedule exam_days !! day
  = if decide (day ∈ exam_days) then Some [] else None.
Proof. unfold empty_schedule. by rewrite foldl_insert_lookup, lookup_empty. Qed.

Lemma gathered_S piece exam_days k day :
  gathered piece exam_days (S k) day
  = gathered piece exam_days k day
    ++ (if decide (exam_days !! k = Some day) then piece k else []).
Proof.
  unfold gathered. rewrite seq_S, bind_app. simpl. by rewrite app_nil_r.
Qed.

Section Loop.
Context (course_list exam_days : list string).
Hypothesis days_pos : 0 < length exam_days.

Local Abbreviation total := (length course_list).
Local Abbreviation days := (length exam_days).

Lemma distributed_init :
  distributed course_list exam_days 0
    {| fn_schedule := empty_schedule exam_days;
       an_schedule := empty_schedule exam_days;
       course_idx := 0 |}.
Proof.
  split; [done|]. intros day. simpl. rewrite lookup_empty_schedule.
  by destruct (decide (day ∈ exam_days)).
Qed.

(** One turn of the loop: the day at position [k] receives its two
    pieces, [fn_share] of its [day_share] in the forenoon and the rest in
    the afternoon, under its label. *)
Lemma day_step_distributed k day st :
  exam_days !! k = Some day →
  distributed course_list exam_days k st →
  distributed course_list exam_days (S k)
    (day_step course_list (total / days) (total mod days) st k day).
Proof.
  intros Hday [Hidx Hbuckets].
  assert (k < days) as Hk by (by eapply lookup_lt_Some).
  pose proof (day_start_le total days days_pos (S k) Hk) as Hle.
  pose proof (day_start_S total days k) as HS.
  pose proof (share_split (day_share total days k)) as Hsplit.
  unfold day_step. rewrite Hidx, courses_this_day_share.
  change ((day_share total days k + 1) / 2)
    with (fn_share (day_share total days k)).
  change (day_share total days k - fn_share (day_share total days k))
    with (an_share (day_share total days k)).
  rewrite assign_slice. rewrite assign_slice.
  rewrite !length_slice by lia.
  split; simpl; [lia|].
  intros day'. destruct (Hbuckets day') as [Hfn Han].
  rewrite !lookup_alter, !gathered_S, Hday.
  assert (day ∈ exam_days) as Hin by (by eapply list_elem_of_lookup_2).
  destruct (decide (day = day')) as [<-|Hne].
  - rewrite !(decide_True (P := Some day = Some day)) by done.
    destruct (Hbuckets day) as [-> ->].
    by destruct (decide (day ∈ exam_days)).
  - rewrite !(decide_False (P := Some day = Some day')) by congruence.
    rewrite Hfn, Han. destruct (decide (day' ∈ exam_days));
      by rewrite ?app_nil_r.
Qed.

Lemma day_loop_distributed rest k st :
  drop k exam_days = rest →
  k ≤ days →
  distributed course_list exam_days k st →
  distributed course_list exam_days days
    (day_loop course_list (total / days) (total mod days) k rest st).
Proof.
  revert k st. induction rest as [|day rest IH]; intros k st Hdrop Hk Hst.
  - simpl. assert (k = days) as ->; [|done].
    apply (f_equal length) in Hdrop. rewrite length_drop in Hdrop.
    simpl in Hdrop. lia.
  - simpl. assert (exam_days !! k = Some day) as Hday.
    { rewrite <- (Nat.add_0_r k), <- lookup_drop, Hdrop. done. }
    apply IH.
    + rewrite (drop_S _ _ _ Hday) in Hdrop. by injection Hdrop.
    + by eapply lookup_lt_Some.
    + by apply day_step_distributed.
Qed.

(** The distribution returns, and its state is the one [distributed]
    describes for the whole list of days. *)
Lemma distribute_distributed :
  ∃ st, distribute course_list exam_days = Returns st
        ∧ distributed course_list exam_days days st.
Proof.
  unfold distribute.
  destruct (Nat.eqb_spec days 0) as [Hz|_]; [lia|].
  eexists. split; [done|].
  apply day_loop_distributed; [done|lia|apply distributed_init].
Qed.

End Loop.

(** ** What the buckets hold *)

Lemma gathered_elem piece exam_days k day c :
  c ∈ gathered piece exam_days k day → ∃ i, i < k ∧ c ∈ piece i.
Proof.
  unfold gathered. intros Hc. apply list_elem_of_bind in Hc as (i & Hc & Hi).
  apply elem_of_seq in Hi. exists i. split; [lia|].
  destruct (decide (exam_days !! i = Some day)); [done|].
  by apply elem_of_nil in Hc.
Qed.

(** Every identifier in a bucket was taken from the course list. *)
Lemma distributed_bucket_elem course_list exam_days k st day c :
  distributed course_list exam_days k st →
  c ∈ bucket (fn_schedule st) day ++ bucket (an_schedule st) day →
  c ∈ course_list.
Proof.
  intros [_ Hbuckets] Hc. destruct (Hbuckets day) as [Hfn Han].
  unfold bucket in Hc. rewrite Hfn, Han in Hc.
  destruct (decide (day ∈ exam_days)); simpl in Hc;
    [|by apply elem_of_nil in Hc].
  apply elem_of_app in Hc as [Hc|Hc];
    apply gathered_elem in Hc as (i & _ & Hc);
    (eapply elem_of_sublist; [exact Hc|apply slice_sublist]).
Qed.

Lemma gathered_distinct piece exam_days k i day :
  NoDup exam_days →
  exam_days !! i = Some day →
  gathered piece exam_days k day = if decide (i < k) then piece i else [].
Proof.
  intros Hnd Hi. induction k as [|k IH].
  - by destruct (decide (i < 0)); [lia|].
  - rewrite gathered_S, IH.
    destruct (decide (exam_days !! k = Some day)) as [Hk|Hk].
    + assert (i = k) as -> by (by eapply NoDup_lookup).
      destruct (decide (k < k)); [lia|].
      destruct (decide (k < S k)); [done|lia].
    + assert (i ≠ k) by congruence.
      destruct (decide (i < k)); destruct (decide (i < S k));
        rewrite ?app_nil_r; (done || lia).
Qed.

Lemma bind_positions {A B : Type} (f : A → list B) (g : nat → list B)
    (l : list A) :
  (∀ i x, l !! i = Some x → f x = g i) →
  l ≫= f = seq 0 (length l) ≫= g.
Proof.
  induction l as [|x l IH] using rev_ind; intros Hfg; [done|].
  rewrite length_app. simpl. rewrite Nat.add_1_r, seq_S, !bind_app. simpl.
  rewrite !app_nil_r. f_equal.
  - apply IH. intros i y Hy. apply Hfg. by apply lookup_app_l_Some.
  - apply Hfg. by rewrite list_lookup_middle.
Qed.

(** The pieces of the first [k] positions, laid end to end, are the
    first [day_start k] identifiers of the list. *)
Lemma pieces_prefix course_list days k :
  seq 0 k ≫= (λ i, fn_piece course_list days i ++ an_piece course_list days i)
  = take (day_start (length course_list) days k) course_list.
Proof.
  induction k as [|k IH]; [done|].
  rewrite seq_S, bind_app, IH. simpl. rewrite app_nil_r.
  unfold fn_piece, an_piece, slice.
  rewrite app_assoc, !take_take_drop, day_start_S.
  by rewrite <- Nat.add_assoc, share_split.
Qed.

(** X7: when no two days share a label, each positional day keeps a
    bucket of its own: it holds the day's share of the list, the larger
    half in the forenoon, and reading the buckets in day order gives the
    course list back. *)
Lemma distribute_distinct_days (course_list exam_days : list string) :
  NoDup exam_days →
  0 < length exam_days →
  ∃ st,
    distribute course_list exam_days = Returns st
    ∧ (∀ i day, exam_days !! i = Some day →
         let share := day_share (length course_list) (length exam_days) i in
         bucket (fn_schedule st) day
         = fn_piece course_list (length exam_days) i
         ∧ bucket (an_schedule st) day
           = an_piece course_list (length exam_days) i
         ∧ length (bucket (fn_schedule st) day) = fn_share share
         ∧ length (bucket (an_schedule st) day) = an_share share)
    ∧ reading exam_days (fn_schedule st) (an_schedule st) = course_list.
Proof.
  intros Hnd Hpos.
  destruct (distribute_distributed course_list exam_days Hpos)
    as (st & Hst & Hidx & Hbuckets).
  exists st. split; [done|].
  assert (∀ i day, exam_days !! i = Some day →
            bucket (fn_schedule st) day
            = fn_piece course_list (length exam_days) i
            ∧ bucket (an_schedule st) day
              = an_piece course_list (length exam_days) i) as Hpieces.
  { intros i day Hi. destruct (Hbuckets day) as [Hfn Han].
    assert (day ∈ exam_days) as Hin by (by eapply list_elem_of_lookup_2).
    assert (i < length exam_days) as Hlt by (by eapply lookup_lt_Some).
    unfold bucket. rewrite Hfn, Han.
    destruct (decide (day ∈ exam_days)); [simpl|done].
    rewrite !(gathered_distinct _ _ _ i) by done.
    by destruct (decide (i < length exam_days)). }
  split.
  - intros i day Hi share. destruct (Hpieces i day Hi) as [-> ->].
    assert (i < length exam_days) as Hlt by (by eapply lookup_lt_Some).
    pose proof (day_start_le (length course_list) (length exam_days)
                  Hpos (S i) Hlt) as Hle.
    rewrite day_start_S in Hle.
    pose proof (share_split share) as Hsplit. subst share.
    unfold fn_piece, an_piece. rewrite !length_slice by lia. done.
  - unfold reading.
    rewrite (bind_positions _
      (λ i, fn_piece course_list (length exam_days) i
            ++ an_piece course_list (length exam_days) i)).
    + rewrite pieces_prefix, day_start_full by done. by rewrite take_ge.
    + intros i day Hi. by destruct (Hpieces i day Hi) as [-> ->].
Qed.

(** ** Rows without an identifier *)

(** C9 (amended): let the configured department names be free of regex
    metacharacters.  The aggregator does not drop a row whose identifier
    is missing: when the course source gives such a row for a configured
    semester and a configured department whose tables pass the four
    emptiness tests, the table the aggregator returns has a row without
    identifier.  Such rows are dropped by [schedule_exams]: every
    identifier of its course list, and so every identifier it puts in a
    bucket, is the identifier of a row of its input. *)
Theorem missing_identifier_rows
    {Dfs : Type} (loader : ExcelLoader Dfs) (config : Config) (dfs : Dfs)
    (s : session) (shuffle : list string → list string)
    (courses_df : DataFrame) (num_days : Z) :
  Forall Regex.plain (DEPARTMENTS config) →
  (∀ l, shuffle l ≡ₚ l) →
  (∀ semester department r0,
     semester ∈ TARGET_SEMESTERS config →
     department ∈ DEPARTMENTS config →
     collected_pair loader dfs s semester department = true →
     r0 ∈ rows (source_part loader dfs s semester department) →
     r0 !! "Course Code" = None →
     ∃ r, r ∈ rows (get_all_session_courses loader config dfs s)
          ∧ r !! "Course Code" = None)
  ∧ (∀ c, c ∈ course_list_of shuffle courses_df →
       ∃ r, r ∈ rows courses_df ∧ r !! "Course Code" = Some c)
  ∧ (∀ st day c,
       distribute (course_list_of shuffle courses_df)
         (slice_to num_days all_exam_days) = Returns st →
       c ∈ bucket (fn_schedule st) day ++ bucket (an_schedule st) day →
       ∃ r, r ∈ rows courses_df ∧ r !! "Course Code" = Some c).
Proof.
  intros _ Hperm.
  assert (∀ c, c ∈ course_list_of shuffle courses_df →
            ∃ r, r ∈ rows courses_df ∧ r !! "Course Code" = Some c) as Hlist.
  { intros c Hc. unfold course_list_of in Hc. rewrite Hperm in Hc.
    apply unique_elem in Hc. by apply elem_of_dropna_column in Hc. }
  split; [|split; [done|]].
  - intros semester department r0 Hsem Hdept Hpass Hr0 Hnone.
    assert (tagged config s semester department r0
            ∈ rows (concat (collect loader config dfs s))) as Hr.
    { rewrite combined_rows_contributions.
      apply list_elem_of_bind. exists semester. split; [|done].
      apply list_elem_of_bind. exists department. split; [|done].
      apply elem_of_contribution. eauto. }
    assert (tagged config s semester department r0 !! "Course Code" = None)
      as Htag by (by rewrite tagged_course_code).
    destruct (aggregated_cases loader config dfs s)
      as [[Hnil _]|[[_ ->]|[_ ->]]].
    + rewrite Hnil in Hr. by apply elem_of_nil in Hr.
    + assert (None ∈ (λ r : gmap string string, r !! "Course Code")
                <$> rows (drop_duplicates "Course Code"
                            (concat (collect loader config dfs s)))) as Hkept.
      { rewrite <- Htag. unfold drop_duplicates. simpl.
        apply (keep_first_covers (λ r : gmap string string, r !! "Course Code"));
          [done|]. apply not_elem_of_nil. }
      apply list_elem_of_fmap in Hkept as (r' & Hr'c & Hr'). eauto.
    + eauto.
  - intros st day c Hst Hc. apply Hlist.
    destruct (length (slice_to num_days all_exam_days)) eqn:Hlen.
    { unfold distribute in Hst. by rewrite Hlen in Hst. }
    destruct (distribute_distributed (course_list_of shuffle courses_df)
                (slice_to num_days all_exam_days)) as (st' & Hst' & Hdist);
      [lia|].
    rewrite Hst in Hst'. injection Hst' as <-.
    by eapply distributed_bucket_elem.
Qed.

Lemma missing_identifier_rows_witness :
  (∃ r, r ∈ rows (get_all_session_courses sample_loader sample_config
                    malformed_catalog PreMid)
        ∧ r !! "Course Code" = None)
  ∧ (∀ c, c ∈ course_list_of reverse malformed_catalog →
       ∃ r, r ∈ rows malformed_catalog ∧ r !! "Course Code" = Some c)
  ∧ (∀ st day c,
       distribute (course_list_of reverse malformed_catalog)
         (slice_to 7 all_exam_days) = Returns st →
       c ∈ bucket (fn_schedule st) day ++ bucket (an_schedule st) day →
       ∃ r, r ∈ rows malformed_catalog ∧ r !! "Course Code" = Some c).
Proof.
  destruct (missing_identifier_rows sample_loader sample_config
              malformed_catalog PreMid reverse malformed_catalog 7
              sample_departments_plain reverse_Permutation)
    as (Hkept & Hlist & Hbuckets).
  split; [|by split].
  apply (Hkept "1" "CS" {["Department" := "CS"]}).
  - apply list_elem_of_here.
  - apply list_elem_of_here.
  - by vm_compute.
  - unfold source_part, department_courses, malformed_catalog. simpl.
    apply list_elem_of_here.
  - by vm_compute.
Defined.

(** C9, counterexample: the aggregator returns the row of the sample
    catalog that has no identifier, tagged like any other row. *)
Lemma missing_identifier_counterexample :
  get_all_pre_mid_courses sample_loader sample_config malformed_catalog
  = {| columns := ["Course Code"; "Department"; "Semester"; "Dept_Session"];
       rows := [ {["Department" := "CS"; "Semester" := "1";
                   "Dept_Session" := "CS_Pre-Mid"]};
                 {["Course Code" := "CS101"; "Department" := "CS";
                   "Semester" := "1"; "Dept_Session" := "CS_Pre-Mid"]} ] |}
  ∧ ∃ r, r ∈ rows (get_all_pre_mid_courses sample_loader sample_config
                     malformed_catalog)
         ∧ r !! "Course Code" = None.
Proof.
  split; [by vm_compute|].
  exists {["Department" := "CS"; "Semester" := "1";
           "Dept_Session" := "CS_Pre-Mid"]}.
  split; [|by vm_compute].
  assert (get_all_pre_mid_courses sample_loader sample_config malformed_catalog
          = {| columns := ["Course Code"; "Department"; "Semester";
                           "Dept_Session"];
               rows := [ {["Department" := "CS"; "Semester" := "1";
                           "Dept_Session" := "CS_Pre-Mid"]};
                         {["Course Code" := "CS101"; "Department" := "CS";
                           "Semester" := "1"; "Dept_Session" := "CS_Pre-Mid"]} ] |})
    as -> by (by vm_compute).
  simpl. apply list_elem_of_here.
Qed.

(** ** Seven days, six labels *)

Lemma course_list_of_frame (shuffle : list string → list string)
    (codes : list string) :
  NoDup codes →
  course_list_of shuffle (frame_of_codes codes) = shuffle codes.
Proof.
  intros Hnd. unfold course_list_of, frame_of_codes, column. simpl.
  f_equal. rewrite <- list_fmap_compose.
  assert (∀ seen : list string,
            (∀ c, c ∈ seen → c ∉ codes) →
            keep_first id seen
              (dropna ((λ r : gmap string string, r !! "Course Code")
                         ∘ (λ c : string, {["Course Code" := c]}) <$> codes))
            = codes) as Hkeep; [|apply Hkeep; intros c Hc; by apply elem_of_nil in Hc].
  induction Hnd as [|c codes Hc Hnd IH]; intros seen Hseen; [done|].
  simpl. rewrite lookup_singleton_eq. simpl.
  destruct (decide (c ∈ seen)) as [Hin|_].
  { exfalso. apply (Hseen c Hin). by left. }
  f_equal. apply IH. intros c' Hc' Hcodes.
  apply elem_of_cons in Hc' as [->|Hc']; [done|].
  apply (Hseen c' Hc'). by right.
Qed.

Lemma gathered_monday (piece : nat → list string) :
  gathered piece all_exam_days 7 "Monday" = piece 1 ++ piece 6.
Proof.
  unfold gathered, all_exam_days. simpl seq. rewrite !bind_cons. simpl.
  repeat match goal with
         | |- context [decide (?a = ?b)] =>
             let H := fresh in
             destruct (decide (a = b)) as [H|H];
             [try discriminate H|try (exfalso; apply H; reflexivity)]
         end.
  by rewrite !app_nil_r.
Qed.

Lemma dict_of_all_exam_days (cell : string → string) :
  foldl (λ data day, dict_set day (cell day) data) [] all_exam_days
  = [("Saturday", cell "Saturday"); ("Monday", cell "Monday");
     ("Tuesday", cell "Tuesday"); ("Wednesday", cell "Wednesday");
     ("Thursday", cell "Thursday"); ("Friday", cell "Friday")].
Proof. by vm_compute. Qed.

Lemma session_data_all_exam_days (schedule : gmap string (list string)) :
  session_data all_exam_days schedule
  = [("Saturday", render (bucket schedule "Saturday"));
     ("Monday", render (bucket schedule "Monday"));
     ("Tuesday", render (bucket schedule "Tuesday"));
     ("Wednesday", render (bucket schedule "Wednesday"));
     ("Thursday", render (bucket schedule "Thursday"));
     ("Friday", render (bucket schedule "Friday"))].
Proof.
  exact (dict_of_all_exam_days (λ day, render (bucket schedule day))).
Qed.

Lemma sheet_cell_six_days (saturday monday tuesday wednesday thursday
    friday : string) :
  sheet_cell
    (frame_of_data
       [("Saturday", saturday); ("Monday", monday); ("Tuesday", tuesday);
        ("Wednesday", wednesday); ("Thursday", thursday); ("Friday", friday)])
    "Monday"
  = monday.
Proof. by vm_compute. Qed.

Lemma sheet_cell_monday (schedule : gmap string (list string)) :
  sheet_cell (frame_of_data (session_data all_exam_days schedule)) "Monday"
  = render (bucket schedule "Monday").
Proof. rewrite session_data_all_exam_days. apply sheet_cell_six_days. Qed.

(** C2, as the code has it: whatever the input, with [num_days = 7] and
    at least one course the returned frames have six day columns, not
    seven, and the ["Monday"] buckets hold the pieces of positions 1 and
    6 one after the other. *)
Theorem second_monday_shares_bucket
    (shuffle : list string → list string) (courses_df : DataFrame) :
  (∀ l, shuffle l ≡ₚ l) →
  course_codes courses_df ≠ [] →
  let course_list := course_list_of shuffle courses_df in
  ∃ st fn_df an_df,
    distribute course_list all_exam_days = Returns st
    ∧ schedule_exams shuffle courses_df 7 = Returns (fn_df, an_df)
    ∧ columns fn_df
      = ["Saturday"; "Monday"; "Tuesday"; "Wednesday"; "Thursday"; "Friday"]
    ∧ columns an_df
      = ["Saturday"; "Monday"; "Tuesday"; "Wednesday"; "Thursday"; "Friday"]
    ∧ bucket (fn_schedule st) "Monday"
      = fn_piece course_list 7 1 ++ fn_piece course_list 7 6
    ∧ bucket (an_schedule st) "Monday"
      = an_piece course_list 7 1 ++ an_piece course_list 7 6
    ∧ sheet_cell fn_df "Monday"
      = render (fn_piece course_list 7 1 ++ fn_piece course_list 7 6)
    ∧ sheet_cell an_df "Monday"
      = render (an_piece course_list 7 1 ++ an_piece course_list 7 6).
Proof.
  intros Hperm Hcodes course_list. subst course_list.
  destruct (schedule_exams_codes shuffle Hperm courses_df 7 Hcodes)
    as [_ Hsched].
  change (slice_to 7 all_exam_days) with all_exam_days in Hsched.
  destruct (distribute_distributed (course_list_of shuffle courses_df)
              all_exam_days) as (st & Hst & _ & Hbuckets);
    [simpl; lia|].
  rewrite Hst in Hsched.
  assert (bucket (fn_schedule st) "Monday"
          = fn_piece (course_list_of shuffle courses_df) 7 1
            ++ fn_piece (course_list_of shuffle courses_df) 7 6
          ∧ bucket (an_schedule st) "Monday"
            = an_piece (course_list_of shuffle courses_df) 7 1
              ++ an_piece (course_list_of shuffle courses_df) 7 6)
    as [Hfn Han].
  { destruct (Hbuckets "Monday") as [Hfn Han]. unfold bucket.
    rewrite Hfn, Han.
    destruct (decide ("Monday" ∈ all_exam_days)) as [_|Hnin].
    - simpl. change (length all_exam_days) with 7.
      by rewrite !gathered_monday.
    - exfalso. apply Hnin. unfold all_exam_days. right. left. }
  eexists st, _, _. split; [done|]. split; [exact Hsched|].
  rewrite !sheet_cell_monday, !session_data_all_exam_days, Hfn, Han.
  done.
Qed.

Lemma second_monday_shares_bucket_witness :
  let course_list := course_list_of reverse (frame_of_codes seven_codes) in
  ∃ st fn_df an_df,
    distribute course_list all_exam_days = Returns st
    ∧ schedule_exams reverse (frame_of_codes seven_codes) 7
      = Returns (fn_df, an_df)
    ∧ columns fn_df
      = ["Saturday"; "Monday"; "Tuesday"; "Wednesday"; "Thursday"; "Friday"]
    ∧ columns an_df
      = ["Saturday"; "Monday"; "Tuesday"; "Wednesday"; "Thursday"; "Friday"]
    ∧ bucket (fn_schedule st) "Monday"
      = fn_piece course_list 7 1 ++ fn_piece course_list 7 6
    ∧ bucket (an_schedule st) "Monday"
      = an_piece course_list 7 1 ++ an_piece course_list 7 6
    ∧ sheet_cell fn_df "Monday"
      = render (fn_piece course_list 7 1 ++ fn_piece course_list 7 6)
    ∧ sheet_cell an_df "Monday"
      = render (an_piece course_list 7 1 ++ an_piece course_list 7 6).
Proof.
  apply (second_monday_shares_bucket reverse (frame_of_codes seven_codes)).
  - apply reverse_Permutation.
  - discriminate.
Defined.

Lemma schedule_exams_frame_of_codes (shuffle : list string → list string)
    (codes course_list : list string) (num_days : Z) :
  NoDup codes →
  codes ≠ [] →
  shuffle codes = course_list →
  course_list ≠ [] →
  schedule_exams shuffle (frame_of_codes codes) num_days
  = match distribute course_list (slice_to num_days all_exam_days) with
    | Raises e => Raises e
    | Returns st =>
        Returns
          (frame_of_data
             (session_data (slice_to num_days all_exam_days) (fn_schedule st)),
           frame_of_data
             (session_data (slice_to num_days all_exam_days) (an_schedule st)))
    end.
Proof.
  intros Hnd Hcodes Hshuffle Hlist. unfold schedule_exams.
  rewrite course_list_of_frame, Hshuffle by done.
  destruct codes as [|c codes]; [done|].
  destruct course_list; done.
Qed.

(** C1, as the code has it: with seven distinct identifiers and
    [num_days = 7], the identifiers the shuffle put at positions 1 and 6
    lie together in the ["Monday"] buckets.  Read over the six day
    columns of the returned frames, forenoon before afternoon, the
    buckets give the identifier of position 6 in third place, which is
    not the shuffled order; read over the seven positions of the day
    list, the ["Monday"] bucket comes twice. *)
Theorem seven_courses_reading
    (shuffle : list string → list string) (s0 s1 s2 s3 s4 s5 s6 : string) :
  shuffle seven_codes = [s0; s1; s2; s3; s4; s5; s6] →
  NoDup [s0; s1; s2; s3; s4; s5; s6] →
  ∃ st fn_df an_df,
    distribute [s0; s1; s2; s3; s4; s5; s6] all_exam_days = Returns st
    ∧ schedule_exams shuffle (frame_of_codes seven_codes) 7
      = Returns (fn_df, an_df)
    ∧ reading (columns fn_df) (fn_schedule st) (an_schedule st)
      = [s0; s1; s6; s2; s3; s4; s5]
    ∧ reading (columns fn_df) (fn_schedule st) (an_schedule st)
      ≠ [s0; s1; s2; s3; s4; s5; s6]
    ∧ reading all_exam_days (fn_schedule st) (an_schedule st)
      = [s0; s1; s6; s2; s3; s4; s5; s1; s6].
Proof.
  intros Hshuffle Hnd.
  assert (s2 ≠ s6) as Hne.
  { intros Heq.
    assert (2 = 6) by (by eapply (NoDup_lookup _ 2 6 s2 Hnd); rewrite ?Heq).
    lia. }
  eexists _, _, _. split; [by vm_compute|]. split.
  { rewrite (schedule_exams_frame_of_codes shuffle seven_codes
               [s0; s1; s2; s3; s4; s5; s6] 7); try done.
    compute_done. }
  split; [by vm_compute|]. split; [|by vm_compute].
  assert (reading
            ["Saturday"; "Monday"; "Tuesday"; "Wednesday"; "Thursday"; "Friday"]
            {["Saturday" := [s0]; "Monday" := [s1; s6]; "Tuesday" := [s2];
              "Wednesday" := [s3]; "Thursday" := [s4]; "Friday" := [s5]]}
            {["Saturday" := []; "Monday" := []; "Tuesday" := [];
              "Wednesday" := []; "Thursday" := []; "Friday" := []]}
          = [s0; s1; s6; s2; s3; s4; s5]) as Hread by (by vm_compute).
  intros Heq. apply Hne.
  assert ([s0; s1; s6; s2; s3; s4; s5] = [s0; s1; s2; s3; s4; s5; s6]) as Hlists.
  { rewrite <- Heq. by vm_compute. }
  congruence.
Qed.

Lemma seven_courses_reading_witness :
  ∃ st fn_df an_df,
    distribute ["C7"; "C6"; "C5"; "C4"; "C3"; "C2"; "C1"] all_exam_days
    = Returns st
    ∧ schedule_exams reverse (frame_of_codes seven_codes) 7
      = Returns (fn_df, an_df)
    ∧ reading (columns fn_df) (fn_schedule st) (an_schedule st)
      = ["C7"; "C6"; "C1"; "C5"; "C4"; "C3"; "C2"]
    ∧ reading (columns fn_df) (fn_schedule st) (an_schedule st)
      ≠ ["C7"; "C6"; "C5"; "C4"; "C3"; "C2"; "C1"]
    ∧ reading all_exam_days (fn_schedule st) (an_schedule st)
      = ["C7"; "C6"; "C1"; "C5"; "C4"; "C3"; "C2"; "C6"; "C1"].
Proof.
  apply (seven_courses_reading reverse "C7" "C6" "C5" "C4" "C3" "C2" "C1").
  - reflexivity.
  - compute_done.
Defined.

(** C4, as the code has it: with seven identifiers and [num_days = 7]
    every position receives one identifier, in the forenoon; the
    ["Monday"] forenoon bucket receives those of positions 1 and 6 and
    the afternoon bucket none, so the day reads two against zero. *)
Theorem seven_courses_monday_split
    (shuffle : list string → list string) (s0 s1 s2 s3 s4 s5 s6 : string) :
  shuffle seven_codes = [s0; s1; s2; s3; s4; s5; s6] →
  let st :=
    {| fn_schedule :=
         {["Saturday" := [s0]; "Monday" := [s1; s6]; "Tuesday" := [s2];
           "Wednesday" := [s3]; "Thursday" := [s4]; "Friday" := [s5]]};
       an_schedule :=
         {["Saturday" := []; "Monday" := []; "Tuesday" := [];
           "Wednesday" := []; "Thursday" := []; "Friday" := []]};
       course_idx := 7 |} in
  distribute [s0; s1; s2; s3; s4; s5; s6] all_exam_days = Returns st
  ∧ schedule_exams shuffle (frame_of_codes seven_codes) 7
    = Returns
        ({| columns := ["Saturday"; "Monday"; "Tuesday"; "Wednesday";
                        "Thursday"; "Friday"];
            rows := [ {["Saturday" := s0; "Monday" := s1 +:+ ", " +:+ s6;
                        "Tuesday" := s2; "Wednesday" := s3;
                        "Thursday" := s4; "Friday" := s5]} ] |},
         {| columns := ["Saturday"; "Monday"; "Tuesday"; "Wednesday";
                        "Thursday"; "Friday"];
            rows := [ {["Saturday" := ""; "Monday" := ""; "Tuesday" := "";
                        "Wednesday" := ""; "Thursday" := "";
                        "Friday" := ""]} ] |})
  ∧ length (bucket (fn_schedule st) "Monday") = 2
  ∧ length (bucket (an_schedule st) "Monday") = 0.
Proof.
  intros Hshuffle st. subst st.
  split; [by vm_compute|]. split; [|by vm_compute].
  rewrite (schedule_exams_frame_of_codes shuffle seven_codes
             [s0; s1; s2; s3; s4; s5; s6] 7); try done.
  compute_done.
Qed.

Lemma seven_courses_monday_split_witness :
  let st :=
    {| fn_schedule :=
         {["Saturday" := ["C7"]; "Monday" := ["C6"; "C1"];
           "Tuesday" := ["C5"]; "Wednesday" := ["C4"]; "Thursday" := ["C3"];
           "Friday" := ["C2"]]};
       an_schedule :=
         {["Saturday" := []; "Monday" := []; "Tuesday" := [];
           "Wednesday" := []; "Thursday" := []; "Friday" := []]};
       course_idx := 7 |} in
  distribute ["C7"; "C6"; "C5"; "C4"; "C3"; "C2"; "C1"] all_exam_days
  = Returns st
  ∧ schedule_exams reverse (frame_of_codes seven_codes) 7
    = Returns
        ({| columns := ["Saturday"; "Monday"; "Tuesday"; "Wednesday";
                        "Thursday"; "Friday"];
            rows := [ {["Saturday" := "C7"; "Monday" := "C6" +:+ ", " +:+ "C1";
                        "Tuesday" := "C5"; "Wednesday" := "C4";
                        "Thursday" := "C3"; "Friday" := "C2"]} ] |},
         {| columns := ["Saturday"; "Monday"; "Tuesday"; "Wednesday";
                        "Thursday"; "Friday"];
            rows := [ {["Saturday" := ""; "Monday" := ""; "Tuesday" := "";
                        "Wednesday" := ""; "Thursday" := "";
                        "Friday" := ""]} ] |})
  ∧ length (bucket (fn_schedule st) "Monday") = 2
  ∧ length (bucket (an_schedule st) "Monday") = 0.
Proof.
  apply (seven_courses_monday_split reverse
           "C7" "C6" "C5" "C4" "C3" "C2" "C1").
  reflexivity.
Defined.

(** C3, as the code has it: with ten identifiers and [num_days = 7] the
    positions receive 2, 2, 2, 1, 1, 1 and 1 identifiers, but positions 1
    and 6 share the label ["Monday"]: the returned frames hold three
    identifiers under ["Monday"] and one under ["Wednesday"]. *)
Theorem ten_courses_day_counts
    (shuffle : list string → list string)
    (s0 s1 s2 s3 s4 s5 s6 s7 s8 s9 : string) :
  shuffle ten_codes = [s0; s1; s2; s3; s4; s5; s6; s7; s8; s9] →
  let st :=
    {| fn_schedule :=
         {["Saturday" := [s0]; "Monday" := [s2; s9]; "Tuesday" := [s4];
           "Wednesday" := [s6]; "Thursday" := [s7]; "Friday" := [s8]]};
       an_schedule :=
         {["Saturday" := [s1]; "Monday" := [s3]; "Tuesday" := [s5];
           "Wednesday" := []; "Thursday" := []; "Friday" := []]};
       course_idx := 10 |} in
  let count day :=
    length (bucket (fn_schedule st) day ++ bucket (an_schedule st) day) in
  distribute [s0; s1; s2; s3; s4; s5; s6; s7; s8; s9] all_exam_days
  = Returns st
  ∧ schedule_exams shuffle (frame_of_codes ten_codes) 7
    = Returns
        ({| columns := ["Saturday"; "Monday"; "Tuesday"; "Wednesday";
                        "Thursday"; "Friday"];
            rows := [ {["Saturday" := s0; "Monday" := s2 +:+ ", " +:+ s9;
                        "Tuesday" := s4; "Wednesday" := s6;
                        "Thursday" := s7; "Friday" := s8]} ] |},
         {| columns := ["Saturday"; "Monday"; "Tuesday"; "Wednesday";
                        "Thursday"; "Friday"];
            rows := [ {["Saturday" := s1; "Monday" := s3; "Tuesday" := s5;
                        "Wednesday" := ""; "Thursday" := "";
                        "Friday" := ""]} ] |})
  ∧ count <$> all_exam_days = [2; 3; 2; 1; 1; 1; 3]
  ∧ day_share 10 7 <$> seq 0 7 = [2; 2; 2; 1; 1; 1; 1].
Proof.
  intros Hshuffle st count. subst st count.
  split; [by vm_compute|]. split; [|by vm_compute].
  rewrite (schedule_exams_frame_of_codes shuffle ten_codes
             [s0; s1; s2; s3; s4; s5; s6; s7; s8; s9] 7); try done.
  compute_done.
Qed.

Lemma ten_courses_day_counts_witness :
  let st :=
    {| fn_schedule :=
         {["Saturday" := ["C10"]; "Monday" := ["C8"; "C1"];
           "Tuesday" := ["C6"]; "Wednesday" := ["C4"]; "Thursday" := ["C3"];
           "Friday" := ["C2"]]};
       an_schedule :=
         {["Saturday" := ["C9"]; "Monday" := ["C7"]; "Tuesday" := ["C5"];
           "Wednesday" := []; "Thursday" := []; "Friday" := []]};
       course_idx := 10 |} in
  let count day :=
    length (bucket (fn_schedule st) day ++ bucket (an_schedule st) day) in
  distribute ["C10"; "C9"; "C8"; "C7"; "C6"; "C5"; "C4"; "C3"; "C2"; "C1"]
    all_exam_days
  = Returns st
  ∧ schedule_exams reverse (frame_of_codes ten_codes) 7
    = Returns
        ({| columns := ["Saturday"; "Monday"; "Tuesday"; "Wednesday";
                        "Thursday"; "Friday"];
            rows := [ {["Saturday" := "C10";
                        "Monday" := "C8" +:+ ", " +:+ "C1";
                        "Tuesday" := "C6"; "Wednesday" := "C4";
                        "Thursday" := "C3"; "Friday" := "C2"]} ] |},
         {| columns := ["Saturday"; "Monday"; "Tuesday"; "Wednesday";
                        "Thursday"; "Friday"];
            rows := [ {["Saturday" := "C9"; "Monday" := "C7";
                        "Tuesday" := "C5"; "Wednesday" := "";
                        "Thursday" := ""; "Friday" := ""]} ] |})
  ∧ count <$> all_exam_days = [2; 3; 2; 1; 1; 1; 3]
  ∧ day_share 10 7 <$> seq 0 7 = [2; 2; 2; 1; 1; 1; 1].
Proof.
  apply (ten_courses_day_counts reverse
           "C10" "C9" "C8" "C7" "C6" "C5" "C4" "C3" "C2" "C1").
  reflexivity.
Defined.

(** ** The buckets as a multiset *)

Lemma bind_app_Permutation {A B : Type} (f g : A → list B) (l : list A) :
  l ≫= (λ x, f x ++ g x) ≡ₚ (l ≫= f) ++ (l ≫= g).
Proof.
  induction l as [|x l IH]; [done|].
  rewrite !bind_cons, IH.
  rewrite <- !app_assoc. f_equiv.
  rewrite !app_assoc. f_equiv. apply Permutation_app_comm.
Qed.

Lemma bind_Permutation_ext {A B : Type} (f g : A → list B) (l : list A) :
  (∀ x, f x ≡ₚ g x) → l ≫= f ≡ₚ l ≫= g.
Proof.
  intros Hfg. induction l as [|x l IH]; [done|].
  by rewrite !bind_cons, IH, Hfg.
Qed.

Lemma bind_single_label (labels : list string) (day : string)
    (piece : list string) :
  NoDup labels →
  day ∈ labels →
  labels ≫= (λ d, if decide (Some day = Some d) then piece else []) = piece.
Proof.
  intros Hnd Hin. induction Hnd as [|d labels Hd Hnd IH].
  - by apply elem_of_nil in Hin.
  - rewrite bind_cons. destruct (decide (Some day = Some d)) as [Heq|Hne].
    + injection Heq as ->.
      assert (labels ≫= (λ d0, if decide (Some d = Some d0) then piece else [])
              = []) as ->; [|by rewrite app_nil_r].
      clear IH Hin Hnd. induction labels as [|d' labels IH]; [done|].
      rewrite bind_cons.
      destruct (decide (Some d = Some d')) as [Heq|_].
      * exfalso. apply Hd. injection Heq as ->. by left.
      * simpl. apply IH. intros Hin. apply Hd. by right.
    + simpl. apply IH. apply elem_of_cons in Hin as [->|Hin]; done.
Qed.

(** Whatever labels repeat, the buckets taken once per label hold the
    pieces of all positions: as a multiset, what the first [k] positions
    received. *)
Lemma gathered_Permutation (course_list exam_days labels : list string)
    (k : nat) :
  NoDup labels →
  (∀ day, day ∈ exam_days → day ∈ labels) →
  k ≤ length exam_days →
  labels ≫= (λ day,
     gathered (fn_piece course_list (length exam_days)) exam_days k day
     ++ gathered (an_piece course_list (length exam_days)) exam_days k day)
  ≡ₚ seq 0 k ≫= (λ i,
       fn_piece course_list (length exam_days) i
       ++ an_piece course_list (length exam_days) i).
Proof.
  intros Hnd Hlabels. induction k as [|k IH]; intros Hk.
  - simpl. unfold gathered. simpl.
    clear. induction labels as [|d labels IH]; [done|].
    by rewrite bind_cons, IH.
  - destruct (lookup_lt_is_Some_2 exam_days k) as [day Hday]; [lia|].
    rewrite seq_S, bind_app. simpl. rewrite app_nil_r.
    rewrite <- IH by lia.
    rewrite <- (bind_single_label labels day
                  (fn_piece course_list (length exam_days) k
                   ++ an_piece course_list (length exam_days) k) Hnd)
      by (by eapply Hlabels, list_elem_of_lookup_2).
    rewrite <- bind_app_Permutation.
    apply bind_Permutation_ext. intros d.
    rewrite !gathered_S, Hday.
    destruct (decide (Some day = Some d)); rewrite ?app_nil_r; [|done].
    rewrite <- !app_assoc. f_equiv.
    rewrite !app_assoc. f_equiv. apply Permutation_app_comm.
Qed.

(** X8: every identifier of the course list lies in the buckets, as often as
    in the list: taken once per label, in the order of the frame's
    columns, the buckets are a rearrangement of the course list. *)
Lemma distribute_buckets_Permutation (course_list exam_days : list string) :
  0 < length exam_days →
  ∃ st,
    distribute course_list exam_days = Returns st
    ∧ reading (unique exam_days) (fn_schedule st) (an_schedule st)
      ≡ₚ course_list.
Proof.
  intros Hpos.
  destruct (distribute_distributed course_list exam_days Hpos)
    as (st & Hst & _ & Hbuckets).
  exists st. split; [done|].
  assert (NoDup (unique exam_days)) as Hnd.
  { unfold unique. rewrite <- (list_fmap_id (keep_first id [] exam_days)).
    apply (keep_first_NoDup id). }
  assert (∀ day, day ∈ exam_days → day ∈ unique exam_days) as Hcover.
  { intros day Hday. unfold unique.
    rewrite <- (list_fmap_id (keep_first id [] exam_days)).
    apply (keep_first_covers id [] exam_days day Hday), not_elem_of_nil. }
  unfold reading.
  rewrite (list_bind_ext _
    (λ day,
       gathered (fn_piece course_list (length exam_days)) exam_days
         (length exam_days) day
       ++ gathered (an_piece course_list (length exam_days)) exam_days
            (length exam_days) day) _ (unique exam_days)); [| |done].
  - rewrite gathered_Permutation by done.
    rewrite pieces_prefix, day_start_full by done. by rewrite take_ge.
  - intros day. destruct (Hbuckets day) as [Hfn Han].
    unfold bucket. rewrite Hfn, Han.
    destruct (decide (day ∈ exam_days)) as [_|Hnin]; [done|].
    simpl. symmetry.
    assert (∀ piece, gathered piece exam_days (length exam_days) day = [])
      as Hnone; [|by rewrite !Hnone].
    intros piece. unfold gathered.
    generalize (length exam_days). intros k.
    induction k as [|k IH]; [done|].
    rewrite seq_S, bind_app, IH. simpl.
    destruct (decide (exam_days !! k = Some day)) as [Hk|_]; [|done].
    exfalso. apply Hnin. by eapply list_elem_of_lookup_2.
Qed.

(** ** Day counts from zero upwards *)

Lemma slice_to_all_days (num_days : Z) :
  (7 ≤ num_days)%Z → slice_to num_days all_exam_days = all_exam_days.
Proof.
  intros Hn. unfold slice_to.
  assert ((num_days <? 0)%Z = false) as -> by lia.
  apply take_ge. simpl. lia.
Qed.

Lemma slice_to_some_days (num_days : Z) :
  (1 ≤ num_days)%Z → 0 < length (slice_to num_days all_exam_days).
Proof.
  intros Hn. unfold slice_to.
  assert ((num_days <? 0)%Z = false) as -> by lia.
  rewrite length_take. simpl. lia.
Qed.

(** X1: a day count above seven is cut to the seven days of the list:
    [schedule_exams] returns what it returns for seven. *)
Theorem schedule_exams_days_capped
    (shuffle : list string → list string) (courses_df : DataFrame)
    (num_days : Z) :
  (7 ≤ num_days)%Z →
  schedule_exams shuffle courses_df num_days
  = schedule_exams shuffle courses_df 7.
Proof.
  intros Hn. unfold schedule_exams.
  by rewrite (slice_to_all_days num_days Hn), (slice_to_all_days 7).
Qed.

Lemma schedule_exams_days_capped_witness :
  schedule_exams reverse (frame_of_codes ten_codes) 12
  = schedule_exams reverse (frame_of_codes ten_codes) 7.
Proof.
  apply (schedule_exams_days_capped reverse (frame_of_codes ten_codes) 12).
  lia.
Defined.

(** X2: the only exception [schedule_exams] raises is the division by zero,
    and it raises it exactly when the input has a course and the day
    count is zero or at most -7, that is, when no day is left. *)
Theorem schedule_exams_raises_iff
    (shuffle : list string → list string) (courses_df : DataFrame)
    (num_days : Z) :
  (∀ l, shuffle l ≡ₚ l) →
  ((∃ e, schedule_exams shuffle courses_df num_days = Raises e)
   ↔ course_codes courses_df ≠ [] ∧ (num_days = 0 ∨ num_days ≤ -7)%Z)
  ∧ (∀ e, schedule_exams shuffle courses_df num_days = Raises e →
       e = ZeroDivisionError).
Proof.
  intros Hperm.
  destruct (decide (course_codes courses_df = [])) as [Hc|Hc].
  { rewrite schedule_exams_no_codes by done.
    split; [|done]. split; [by intros [e He]|by intros [? _]]. }
  destruct (schedule_exams_codes shuffle Hperm courses_df num_days Hc)
    as [_ ->].
  destruct (decide (num_days = 0 ∨ num_days ≤ -7)%Z) as [Hn|Hn].
  - assert (slice_to num_days all_exam_days = []) as ->.
    { destruct Hn as [->|Hn]; [done|by apply slice_to_below]. }
    split; [|by intros e [= <-]]. split; [done|by eexists].
  - assert (0 < length (slice_to num_days all_exam_days)) as Hpos.
    { destruct (decide (1 ≤ num_days)%Z); [by apply slice_to_some_days|].
      rewrite slice_to_negative by lia.
      apply slice_to_some_days. lia. }
    destruct (distribute_distributed (course_list_of shuffle courses_df)
                (slice_to num_days all_exam_days) Hpos) as (st & -> & _).
    split; [|done]. split; [by intros [e He]|by intros [_ ?]].
Qed.

Lemma schedule_exams_raises_iff_witness :
  ((∃ e, schedule_exams reverse (frame_of_codes seven_codes) 0 = Raises e)
   ↔ course_codes (frame_of_codes seven_codes) ≠ []
     ∧ (0 = 0 ∨ 0 ≤ -7)%Z)
  ∧ (∀ e, schedule_exams reverse (frame_of_codes seven_codes) 0 = Raises e →
       e = ZeroDivisionError).
Proof.
  apply (schedule_exams_raises_iff reverse (frame_of_codes seven_codes) 0).
  apply reverse_Permutation.
Defined.

(** ** The columns of the returned frames *)

Lemma keep_first_seen_ext {A K : Type} `{EqDecision K} (key : A → K)
    (seen seen' : list K) (l : list A) :
  (∀ k, k ∈ seen ↔ k ∈ seen') →
  keep_first key seen l = keep_first key seen' l.
Proof.
  revert seen seen'. induction l as [|x l IH]; intros seen seen' Hs; [done|].
  simpl. destruct (decide (key x ∈ seen)) as [Hin|Hnin].
  - rewrite decide_True by (by apply Hs). by apply IH.
  - rewrite decide_False by (by rewrite <- Hs). f_equal. apply IH.
    intros k. rewrite !elem_of_cons, Hs. done.
Qed.

Lemma dict_set_keys (k v : string) (data : list (string * string)) :
  (dict_set k v data).*1
  = if decide (k ∈ data.*1) then data.*1 else data.*1 ++ [k].
Proof.
  unfold dict_set. destruct (decide (k ∈ data.*1)).
  - rewrite <- list_fmap_compose. apply list_fmap_ext.
    intros i kv _. simpl. by destruct (decide (kv.1 = k)) as [->|].
  - by rewrite fmap_app.
Qed.

Lemma foldl_dict_set_keys (cell : string → string) (days : list string)
    (data : list (string * string)) :
  (foldl (λ data day, dict_set day (cell day) data) data days).*1
  = data.*1 ++ keep_first id data.*1 days.
Proof.
  revert data. induction days as [|day days IH]; intros data; simpl.
  - by rewrite app_nil_r.
  - rewrite IH, dict_set_keys.
    destruct (decide (day ∈ data.*1)) as [Hin|Hnin]; [done|].
    rewrite <- app_assoc. simpl. do 2 f_equal.
    apply keep_first_seen_ext. intros k.
    rewrite elem_of_app, !elem_of_cons, elem_of_nil. simpl. tauto.
Qed.

(** The keys of [fn_data], in order: each label once, where it first
    stands in the list of days. *)
Lemma session_data_keys (exam_days : list string)
    (schedule : gmap string (list string)) :
  (session_data exam_days schedule).*1 = unique exam_days.
Proof.
  unfold session_data.
  exact (foldl_dict_set_keys (λ day, render (bucket schedule day))
           exam_days []).
Qed.

Lemma unique_nonempty (l : list string) : l ≠ [] → unique l ≠ [].
Proof. intros Hl Hu. by apply unique_nil_inv in Hu. Qed.

Lemma dict_set_values (cell : string → string) (day : string)
    (data : list (string * string)) :
  (∀ k v, (k, v) ∈ data → v = cell k) →
  ∀ k v, (k, v) ∈ dict_set day (cell day) data → v = cell k.
Proof.
  intros Hdata k v. unfold dict_set.
  destruct (decide (day ∈ data.*1)).
  - intros Hin. apply list_elem_of_fmap in Hin as ([k' v'] & Heq & Hin).
    simpl in Heq. destruct (decide (k' = day)).
    + by injection Heq as -> ->.
    + injection Heq as -> ->. by apply Hdata.
  - intros Hin. apply elem_of_app in Hin as [Hin|Hin]; [by apply Hdata|].
    apply list_elem_of_singleton in Hin. by injection Hin as -> ->.
Qed.

Lemma foldl_dict_set_values (cell : string → string) (days : list string)
    (data : list (string * string)) :
  (∀ k v, (k, v) ∈ data → v = cell k) →
  ∀ k v,
    (k, v) ∈ foldl (λ data day, dict_set day (cell day) data) data days →
    v = cell k.
Proof.
  revert data. induction days as [|day days IH]; intros data Hdata; [done|].
  simpl. apply IH. by apply dict_set_values.
Qed.

(** The cell of [fn_data] under a label of the list of days is the text
    of the label's bucket. *)
Lemma session_data_lookup (exam_days : list string)
    (schedule : gmap string (list string)) (day : string) :
  day ∈ exam_days →
  (list_to_map (session_data exam_days schedule) : gmap string string) !! day
  = Some (render (bucket schedule day)).
Proof.
  intros Hday.
  destruct (list_to_map (session_data exam_days schedule) !! day)
    as [v|] eqn:Hv.
  - apply elem_of_list_to_map_2 in Hv. f_equal. revert Hv.
    apply (foldl_dict_set_values (λ day, render (bucket schedule day))).
    intros k v' Hin. by apply elem_of_nil in Hin.
  - apply not_elem_of_list_to_map in Hv. exfalso.
    apply Hv. rewrite session_data_keys. unfold unique.
    rewrite <- (list_fmap_id (keep_first id [] _)).
    apply (keep_first_covers id [] _ day Hday), not_elem_of_nil.
Qed.

(** X3: with a course and at least one day, [schedule_exams] returns two
    frames of one row each; their columns are the labels of the first
    [num_days] days, each label once, and the cell under a label holds
    the bucket the distribution ends with for that label, its
    identifiers joined by a comma and a space: the empty text for an
    empty bucket. *)
Theorem schedule_exams_frames_shape
    (shuffle : list string → list string) (courses_df : DataFrame)
    (num_days : Z) :
  (∀ l, shuffle l ≡ₚ l) →
  course_codes courses_df ≠ [] →
  (1 ≤ num_days)%Z →
  ∃ st fn_df an_df fn_row an_row,
    distribute (course_list_of shuffle courses_df)
      (slice_to num_days all_exam_days) = Returns st
    ∧ schedule_exams shuffle courses_df num_days = Returns (fn_df, an_df)
    ∧ columns fn_df = unique (slice_to num_days all_exam_days)
    ∧ columns an_df = unique (slice_to num_days all_exam_days)
    ∧ rows fn_df = [fn_row] ∧ rows an_df = [an_row]
    ∧ ∀ day, day ∈ slice_to num_days all_exam_days →
        fn_row !! day = Some (render (bucket (fn_schedule st) day))
        ∧ an_row !! day = Some (render (bucket (an_schedule st) day))
        ∧ (bucket (fn_schedule st) day = [] → fn_row !! day = Some "")
        ∧ (bucket (an_schedule st) day = [] → an_row !! day = Some "")
        ∧ (bucket (fn_schedule st) day ≠ [] →
             fn_row !! day
             = Some (String.concat ", " (bucket (fn_schedule st) day)))
        ∧ (bucket (an_schedule st) day ≠ [] →
             an_row !! day
             = Some (String.concat ", " (bucket (an_schedule st) day))).
Proof.
  intros Hperm Hc Hn.
  destruct (schedule_exams_codes shuffle Hperm courses_df num_days Hc)
    as [_ ->].
  pose proof (slice_to_some_days num_days Hn) as Hpos.
  destruct (distribute_distributed (course_list_of shuffle courses_df)
              (slice_to num_days all_exam_days) Hpos) as (st & -> & _).
  assert (∀ schedule : gmap string (list string),
            session_data (slice_to num_days all_exam_days) schedule ≠ [])
    as Hdata.
  { intros schedule Hnil. apply (f_equal (fmap fst)) in Hnil.
    rewrite session_data_keys in Hnil. simpl in Hnil.
    apply unique_nil_inv in Hnil. rewrite Hnil in Hpos. simpl in Hpos. lia. }
  eexists st, _, _,
    (list_to_map (session_data (slice_to num_days all_exam_days)
                    (fn_schedule st))),
    (list_to_map (session_data (slice_to num_days all_exam_days)
                    (an_schedule st))).
  split; [done|]. split; [done|].
  unfold frame_of_data. simpl. rewrite !session_data_keys.
  split; [done|]. split; [done|].
  pose proof (Hdata (fn_schedule st)). pose proof (Hdata (an_schedule st)).
  split; [by destruct (session_data _ (fn_schedule st))|].
  split; [by destruct (session_data _ (an_schedule st))|].
  intros day Hday.
  rewrite !session_data_lookup by done.
  split; [done|]. split; [done|].
  split; [by intros ->|]. split; [by intros ->|].
  split; intros Hne; f_equal; unfold render;
    by destruct (bucket _ day).
Qed.

Lemma schedule_exams_frames_shape_witness :
  ∃ st fn_df an_df fn_row an_row,
    distribute (course_list_of reverse (frame_of_codes ten_codes))
      (slice_to 3 all_exam_days) = Returns st
    ∧ schedule_exams reverse (frame_of_codes ten_codes) 3
      = Returns (fn_df, an_df)
    ∧ columns fn_df = unique (slice_to 3 all_exam_days)
    ∧ columns an_df = unique (slice_to 3 all_exam_days)
    ∧ rows fn_df = [fn_row] ∧ rows an_df = [an_row]
    ∧ ∀ day, day ∈ slice_to 3 all_exam_days →
        fn_row !! day = Some (render (bucket (fn_schedule st) day))
        ∧ an_row !! day = Some (render (bucket (an_schedule st) day))
        ∧ (bucket (fn_schedule st) day = [] → fn_row !! day = Some "")
        ∧ (bucket (an_schedule st) day = [] → an_row !! day = Some "")
        ∧ (bucket (fn_schedule st) day ≠ [] →
             fn_row !! day
             = Some (String.concat ", " (bucket (fn_schedule st) day)))
        ∧ (bucket (an_schedule st) day ≠ [] →
             an_row !! day
             = Some (String.concat ", " (bucket (an_schedule st) day))).
Proof.
  apply (schedule_exams_frames_shape reverse (frame_of_codes ten_codes) 3).
  - apply reverse_Permutation.
  - discriminate.
  - lia.
Defined.

(** ** What the schedule depends on *)

Lemma keep_first_NoDup_id (l seen : list string) :
  NoDup l → (∀ c, c ∈ seen → c ∉ l) → keep_first id seen l = l.
Proof.
  intros Hnd. revert seen.
  induction Hnd as [|c l Hc Hnd IH]; intros seen Hseen; [done|].
  simpl. destruct (decide (c ∈ seen)) as [Hin|_].
  { exfalso. apply (Hseen c Hin). by left. }
  f_equal. apply IH. intros c' Hc' Hl.
  apply elem_of_cons in Hc' as [->|Hc']; [done|].
  apply (Hseen c' Hc'). by right.
Qed.

Lemma unique_NoDup (l : list string) : NoDup (unique l).
Proof.
  unfold unique. rewrite <- (list_fmap_id (keep_first id [] l)).
  apply (keep_first_NoDup id).
Qed.

(** X4: [schedule_exams] looks at nothing but the [Course Code] column, and
    there only at the identifiers and the order of their first
    appearance: it returns the same for the table and for the bare list
    of its distinct identifiers. *)
Theorem schedule_exams_identifier_column
    (shuffle : list string → list string) (courses_df : DataFrame)
    (num_days : Z) :
  (∀ l, shuffle l ≡ₚ l) →
  schedule_exams shuffle courses_df num_days
  = schedule_exams shuffle (frame_of_codes (unique (course_codes courses_df)))
      num_days.
Proof.
  intros Hperm.
  destruct (decide (course_codes courses_df = [])) as [Hc|Hc].
  { rewrite Hc. by rewrite schedule_exams_no_codes. }
  destruct (schedule_exams_codes shuffle Hperm courses_df num_days Hc)
    as [Hlist ->].
  assert (course_list_of shuffle courses_df
          = shuffle (unique (course_codes courses_df))) as Heq.
  { unfold course_list_of, course_codes in *.
    by destruct (has_column "Course Code" courses_df). }
  rewrite (schedule_exams_frame_of_codes shuffle
             (unique (course_codes courses_df))
             (course_list_of shuffle courses_df) num_days);
    [done|apply unique_NoDup|by apply unique_nonempty|done|done].
Qed.

Lemma schedule_exams_identifier_column_witness :
  schedule_exams reverse shared_course_catalog 7
  = schedule_exams reverse
      (frame_of_codes (unique (course_codes shared_course_catalog))) 7.
Proof.
  apply (schedule_exams_identifier_column reverse shared_course_catalog 7).
  apply reverse_Permutation.
Defined.

(** ** One position of the loop *)

Lemma day_loop_snoc course_list base extra i days day st :
  day_loop course_list base extra i (days ++ [day]) st
  = day_step course_list base extra
      (day_loop course_list base extra i days st) (i + length days) day.
Proof.
  revert i st. induction days as [|d days IH]; intros i st; simpl.
  - by rewrite Nat.add_0_r.
  - rewrite IH. by rewrite Nat.add_succ_comm.
Qed.

Lemma loop_state_S course_list exam_days k day :
  exam_days !! k = Some day →
  loop_state course_list exam_days (S k)
  = day_step course_list
      (length course_list / length exam_days)
      (length course_list mod length exam_days)
      (loop_state course_list exam_days k) k day.
Proof.
  intros Hday. unfold loop_state.
  rewrite (take_S_r _ _ _ Hday), day_loop_snoc. simpl.
  rewrite length_take_le; [done|].
  apply lookup_lt_Some in Hday. lia.
Qed.

Lemma loop_state_distributed course_list exam_days k :
  k ≤ length exam_days →
  0 < length exam_days →
  distributed course_list exam_days k (loop_state course_list exam_days k).
Proof.
  intros Hk Hpos. induction k as [|k IH].
  - apply distributed_init.
  - destruct (lookup_lt_is_Some_2 exam_days k) as [day Hday]; [lia|].
    rewrite (loop_state_S _ _ _ _ Hday).
    apply day_step_distributed; [done|done|]. apply IH. lia.
Qed.

(** X5: at every position of the loop the branch "at least one course for
    this day" is dead: the number of courses the loop settles on is the
    base count plus one for the first [extra_courses] positions, and
    when that number is zero the cursor has already passed the last
    course. *)
Theorem floor_up_rule_never_fires
    (course_list exam_days : list string) (k : nat) :
  k < length exam_days →
  let total := length course_list in
  let base := total / length exam_days in
  let extra := total mod length exam_days in
  let cursor := course_idx (loop_state course_list exam_days k) in
  courses_this_day total base extra k cursor
  = base + (if k <? extra then 1 else 0)
  ∧ (base + (if k <? extra then 1 else 0) = 0 → cursor = total)
  ∧ cursor + (base + (if k <? extra then 1 else 0)) ≤ total.
Proof.
  intros Hk total base extra cursor. subst total base extra cursor.
  assert (0 < length exam_days) as Hpos by lia.
  destruct (loop_state_distributed course_list exam_days k) as [-> _];
    [lia|done|].
  rewrite courses_this_day_share.
  pose proof (day_start_le (length course_list) (length exam_days) Hpos
                (S k) Hk) as Hle.
  rewrite day_start_S in Hle. unfold day_share in *.
  split; [done|]. split; [|done].
  intros Hzero.
  pose proof (courses_this_day_share (length course_list)
                (length exam_days) k) as Hshare.
  unfold courses_this_day, day_share in Hshare. rewrite Hzero in Hshare.
  destruct (Nat.ltb_spec (day_start (length course_list) (length exam_days) k)
              (length course_list)) as [Hlt|Hge].
  - exfalso.
    destruct (k <? length course_list mod length exam_days);
      simpl in Hshare; destruct (length course_list / length exam_days);
      simpl in *; lia.
  - lia.
Qed.

Lemma floor_up_rule_never_fires_witness :
  let total := length ["C1"; "C2"; "C3"] in
  let base := total / length all_exam_days in
  let extra := total mod length all_exam_days in
  let cursor := course_idx (loop_state ["C1"; "C2"; "C3"] all_exam_days 5) in
  courses_this_day total base extra 5 cursor
  = base + (if 5 <? extra then 1 else 0)
  ∧ (base + (if 5 <? extra then 1 else 0) = 0 → cursor = total)
  ∧ cursor + (base + (if 5 <? extra then 1 else 0)) ≤ total.
Proof.
  apply (floor_up_rule_never_fires ["C1"; "C2"; "C3"] all_exam_days 5).
  simpl. lia.
Defined.

(** X6: what the day at position [k] receives: the loop takes the next
    [day_share] identifiers under the cursor, appends the first
    [fn_share] of them to the forenoon bucket of the day's label and the
    rest to its afternoon bucket, in order, and touches no bucket of
    another label.  Two shares differ by at most one, and the forenoon
    part is the afternoon part or one more. *)
Theorem position_receives_share
    (course_list exam_days : list string) (k : nat) (day : string) :
  exam_days !! k = Some day →
  let total := length course_list in
  let share := day_share total (length exam_days) in
  let st := loop_state course_list exam_days k in
  let st' := loop_state course_list exam_days (S k) in
  course_idx st' = course_idx st + share k
  ∧ bucket (fn_schedule st') day
    = bucket (fn_schedule st) day
      ++ slice (course_idx st) (fn_share (share k)) course_list
  ∧ bucket (an_schedule st') day
    = bucket (an_schedule st) day
      ++ slice (course_idx st + fn_share (share k)) (an_share (share k))
           course_list
  ∧ length (slice (course_idx st) (fn_share (share k)) course_list)
    = fn_share (share k)
  ∧ length (slice (course_idx st + fn_share (share k)) (an_share (share k))
              course_list)
    = an_share (share k)
  ∧ fn_share (share k) + an_share (share k) = share k
  ∧ (fn_share (share k) = an_share (share k)
     ∨ fn_share (share k) = an_share (share k) + 1)
  ∧ (∀ other, other ≠ day →
       bucket (fn_schedule st') other = bucket (fn_schedule st) other
       ∧ bucket (an_schedule st') other = bucket (an_schedule st) other)
  ∧ (∀ j, j < length exam_days →
       share k ≤ share j + 1 ∧ share j ≤ share k + 1).
Proof.
  intros Hday total share st st'. subst total share st st'.
  assert (k < length exam_days) as Hk by (by eapply lookup_lt_Some).
  assert (0 < length exam_days) as Hpos by lia.
  destruct (loop_state_distributed course_list exam_days k)
    as [Hidx Hb]; [lia|done|].
  destruct (loop_state_distributed course_list exam_days (S k))
    as [Hidx' Hb']; [lia|done|].
  pose proof (day_start_le (length course_list) (length exam_days) Hpos
                (S k) Hk) as Hle.
  pose proof (share_split (day_share (length course_list)
                             (length exam_days) k)) as Hsplit.
  rewrite day_start_S in Hle, Hidx'. rewrite Hidx', Hidx.
  assert (day ∈ exam_days) as Hin by (by eapply list_elem_of_lookup_2).
  split; [done|].
  split.
  { unfold bucket. destruct (Hb day) as [-> _]. destruct (Hb' day) as [-> _].
    rewrite !decide_True by done. simpl.
    by rewrite gathered_S, Hday, decide_True. }
  split.
  { unfold bucket. destruct (Hb day) as [_ ->]. destruct (Hb' day) as [_ ->].
    rewrite !decide_True by done. simpl.
    by rewrite gathered_S, Hday, decide_True. }
  split; [apply length_slice; lia|].
  split; [apply length_slice; lia|].
  split; [done|]. split; [apply fn_an_balance|].
  split.
  - intros other Hother. unfold bucket.
    destruct (Hb other) as [-> ->]. destruct (Hb' other) as [-> ->].
    destruct (decide (other ∈ exam_days)); [simpl|done].
    rewrite !gathered_S, Hday.
    rewrite !decide_False by congruence. by rewrite !app_nil_r.
  - intros j _. unfold day_share.
    destruct (k <? length course_list mod length exam_days);
      destruct (j <? length course_list mod length exam_days); lia.
Qed.

Lemma position_receives_share_witness :
  let total := length ten_codes in
  let share := day_share total (length all_exam_days) in
  let st := loop_state ten_codes all_exam_days 6 in
  let st' := loop_state ten_codes all_exam_days 7 in
  course_idx st' = course_idx st + share 6
  ∧ bucket (fn_schedule st') "Monday"
    = bucket (fn_schedule st) "Monday"
      ++ slice (course_idx st) (fn_share (share 6)) ten_codes
  ∧ bucket (an_schedule st') "Monday"
    = bucket (an_schedule st) "Monday"
      ++ slice (course_idx st + fn_share (share 6)) (an_share (share 6))
           ten_codes
  ∧ length (slice (course_idx st) (fn_share (share 6)) ten_codes)
    = fn_share (share 6)
  ∧ length (slice (course_idx st + fn_share (share 6)) (an_share (share 6))
              ten_codes)
    = an_share (share 6)
  ∧ fn_share (share 6) + an_share (share 6) = share 6
  ∧ (fn_share (share 6) = an_share (share 6)
     ∨ fn_share (share 6) = an_share (share 6) + 1)
  ∧ (∀ other, other ≠ "Monday" →
       bucket (fn_schedule st') other = bucket (fn_schedule st) other
       ∧ bucket (an_schedule st') other = bucket (an_schedule st) other)
  ∧ (∀ j, j < length all_exam_days →
       share 6 ≤ share j + 1 ∧ share j ≤ share 6 + 1).
Proof.
  apply (position_receives_share ten_codes all_exam_days 6 "Monday").
  reflexivity.
Defined.

Lemma distribute_distinct_days_witness :
  ∃ st,
    distribute ten_codes (take 6 all_exam_days) = Returns st
    ∧ (∀ i day, take 6 all_exam_days !! i = Some day →
         let share :=
           day_share (length ten_codes) (length (take 6 all_exam_days)) i in
         bucket (fn_schedule st) day
         = fn_piece ten_codes (length (take 6 all_exam_days)) i
         ∧ bucket (an_schedule st) day
           = an_piece ten_codes (length (take 6 all_exam_days)) i
         ∧ length (bucket (fn_schedule st) day) = fn_share share
         ∧ length (bucket (an_schedule st) day) = an_share share)
    ∧ reading (take 6 all_exam_days) (fn_schedule st) (an_schedule st)
      = ten_codes.
Proof.
  apply (distribute_distinct_days ten_codes (take 6 all_exam_days)).
  - compute_done.
  - simpl. lia.
Defined.

Lemma distribute_buckets_Permutation_witness :
  ∃ st,
    distribute ten_codes all_exam_days = Returns st
    ∧ reading (unique all_exam_days) (fn_schedule st) (an_schedule st)
      ≡ₚ ten_codes.
Proof.
  apply (distribute_buckets_Permutation ten_codes all_exam_days).
  simpl. lia.
Defined.

(** ** Where the aggregated rows come from *)

Lemma keep_first_nonempty {A K : Type} `{EqDecision K} (key : A → K)
    (l : list A) :
  l ≠ [] → keep_first key [] l ≠ [].
Proof.
  destruct l as [|x l]; [done|]. intros _. simpl.
  destruct (decide (key x ∈ [])) as [Hin|_]; [by apply elem_of_nil in Hin|done].
Qed.

Section AggregatorRows.
Context {Dfs : Type} (loader : ExcelLoader Dfs) (config : Config) (dfs : Dfs).

Lemma aggregated_rows_subseteq s r :
  r ∈ rows (get_all_session_courses loader config dfs s) →
  r ∈ rows (concat (collect loader config dfs s)).
Proof.
  intros Hr.
  destruct (aggregated_cases loader config dfs s)
    as [[_ Heq]|[[_ Heq]|[_ Heq]]]; rewrite Heq in Hr.
  - by apply elem_of_nil in Hr.
  - unfold drop_duplicates in Hr. simpl in Hr.
    by apply keep_first_elem in Hr as [? _].
  - done.
Qed.

Lemma collected_frames_populated s df :
  df ∈ collect loader config dfs s →
  rows df ≠ []
  ∧ "Semester" ∈ columns df ∧ "Dept_Session" ∈ columns df.
Proof.
  unfold collect. intros Hdf.
  apply list_elem_of_bind in Hdf as (semester & Hdf & _).
  unfold semester_frames in Hdf.
  destruct (is_empty (get_semester_courses loader dfs semester));
    [by apply elem_of_nil in Hdf|].
  destruct (is_empty (parse_ltpsc loader _)); [by apply elem_of_nil in Hdf|].
  apply list_elem_of_bind in Hdf as (department & Hdf & _).
  unfold department_frames in Hdf.
  destruct (is_empty (department_courses _ _)); [by apply elem_of_nil in Hdf|].
  destruct (is_empty (session_part s _)) eqn:Hempty;
    [by apply elem_of_nil in Hdf|].
  apply list_elem_of_singleton in Hdf as ->.
  unfold is_empty in Hempty. apply orb_false_iff in Hempty as [_ Hrows].
  apply bool_decide_eq_false_1 in Hrows.
  split; [|split].
  - simpl. intros Hnil. apply fmap_nil_inv in Hnil.
    apply fmap_nil_inv in Hnil. done.
  - unfold set_column at 1. simpl.
    destruct (decide ("Dept_Session" ∈ _)); rewrite ?elem_of_app;
      [|left]; unfold set_column; simpl;
      (destruct (decide ("Semester" ∈ _));
       [done|rewrite elem_of_app; right; by left]).
  - unfold set_column at 1. simpl.
    destruct (decide ("Dept_Session" ∈ _)); [done|].
    rewrite elem_of_app. right. by left.
Qed.

(** X9: when the configured department names are free of regex
    metacharacters, every row of the table an aggregator returns is a
    row of the session split the course source gave for one configured
    semester and one configured department, with two cells set:
    [Semester] to that semester and [Dept_Session] to the department, an
    underscore and the session name. *)
Theorem aggregated_rows_tagged (s : session) (r : gmap string string) :
  Forall Regex.plain (DEPARTMENTS config) →
  r ∈ rows (get_all_session_courses loader config dfs s) →
  ∃ semester department r0,
    semester ∈ TARGET_SEMESTERS config
    ∧ department ∈ DEPARTMENTS config
    ∧ (let sem_courses_parsed :=
         parse_ltpsc loader (get_semester_courses loader dfs semester) in
       r0 ∈ rows (session_part s
                    (divide_courses_by_session loader
                       (department_courses sem_courses_parsed department)
                       department sem_courses_parsed)))
    ∧ r = <["Dept_Session" := department +:+ "_" +:+ session_name config s]>
            (<["Semester" := semester]> r0)
    ∧ r !! "Semester" = Some semester
    ∧ r !! "Dept_Session"
      = Some (department +:+ "_" +:+ session_name config s).
Proof.
  intros _ Hr. apply aggregated_rows_subseteq in Hr.
  unfold concat, collect in Hr. simpl in Hr.
  apply list_elem_of_bind in Hr as (df & Hr & Hdf).
  apply list_elem_of_bind in Hdf as (semester & Hdf & Hsem).
  unfold semester_frames in Hdf.
  destruct (is_empty (get_semester_courses loader dfs semester));
    [by apply elem_of_nil in Hdf|].
  destruct (is_empty (parse_ltpsc loader _)); [by apply elem_of_nil in Hdf|].
  apply list_elem_of_bind in Hdf as (department & Hdf & Hdept).
  unfold department_frames in Hdf.
  destruct (is_empty (department_courses _ _)); [by apply elem_of_nil in Hdf|].
  destruct (is_empty (session_part s _)); [by apply elem_of_nil in Hdf|].
  apply list_elem_of_singleton in Hdf as ->.
  unfold set_column in Hr. simpl in Hr.
  rewrite <- list_fmap_compose in Hr.
  apply list_elem_of_fmap in Hr as (r0 & -> & Hr0).
  exists semester, department, r0. simpl.
  split; [done|]. split; [done|]. split; [done|]. split; [done|].
  split; [|apply lookup_insert_eq].
  rewrite lookup_insert_ne by done. apply lookup_insert_eq.
Qed.

(** X10: when the course source has no course for any configured semester,
    before or after parsing, the aggregator returns the empty frame. *)
Theorem aggregated_empty_sources (s : session) :
  (∀ semester, semester ∈ TARGET_SEMESTERS config →
     is_empty (get_semester_courses loader dfs semester) = true
     ∨ is_empty (parse_ltpsc loader (get_semester_courses loader dfs semester))
       = true) →
  get_all_session_courses loader config dfs s = empty_frame.
Proof.
  intros Hempty.
  assert (collect loader config dfs s = []) as Hnil.
  { unfold collect.
    induction (TARGET_SEMESTERS config) as [|semester l IH]; [done|].
    rewrite bind_cons, IH by (intros; apply Hempty; by right).
    rewrite app_nil_r. unfold semester_frames.
    destruct (Hempty semester) as [->| ->]; [by left|done|].
    by destruct (is_empty (get_semester_courses loader dfs semester)). }
  unfold get_all_session_courses. by rewrite Hnil.
Qed.

(** X11: an aggregator never returns a table that has columns but no row:
    its result is the empty frame, or it has a row and carries the two
    tag columns. *)
Theorem aggregated_empty_or_populated (s : session) :
  get_all_session_courses loader config dfs s = empty_frame
  ∨ (is_empty (get_all_session_courses loader config dfs s) = false
     ∧ "Semester" ∈ columns (get_all_session_courses loader config dfs s)
     ∧ "Dept_Session" ∈ columns (get_all_session_courses loader config dfs s)).
Proof.
  destruct (collect loader config dfs s) as [|df frames] eqn:Hall.
  { left. unfold get_all_session_courses. by rewrite Hall. }
  right.
  destruct (collected_frames_populated s df) as (Hrows & Hsem & Htag).
  { rewrite Hall. by left. }
  assert (rows (concat (collect loader config dfs s)) ≠ []) as Hcombined.
  { rewrite Hall. unfold concat. simpl.
    destruct (rows df); [done|]. done. }
  assert (∀ c, c ∈ columns df →
            c ∈ columns (concat (collect loader config dfs s))) as Hcols.
  { intros c Hc. rewrite Hall. unfold concat, union_columns.
    cbn [columns].
    rewrite <- (list_fmap_id (keep_first id [] _)).
    apply (keep_first_covers id [] _ c); [|apply not_elem_of_nil].
    rewrite bind_cons. apply elem_of_app. by left. }
  assert (∀ result,
            columns result = columns (concat (collect loader config dfs s)) →
            rows result ≠ [] →
            is_empty result = false
            ∧ "Semester" ∈ columns result ∧ "Dept_Session" ∈ columns result)
    as Hgoal.
  { intros result Hc Hr. rewrite Hc. split; [|by split; apply Hcols].
    unfold is_empty. rewrite Hc.
    apply orb_false_iff. split; apply bool_decide_eq_false_2; [|done].
    intros Hnil. specialize (Hcols _ Hsem). rewrite Hnil in Hcols.
    by apply elem_of_nil in Hcols. }
  destruct (aggregated_cases loader config dfs s)
    as [[Hnil _]|[[_ ->]|[_ ->]]].
  - by rewrite Hall in Hnil.
  - apply Hgoal; [done|]. unfold drop_duplicates. cbn [rows].
    by apply keep_first_nonempty.
  - by apply Hgoal.
Qed.

End AggregatorRows.

Lemma aggregated_rows_tagged_witness :
  let r : gmap string string :=
    {["Course Code" := "MA101"; "Department" := "CS"; "Semester" := "1";
      "Dept_Session" := "CS_Pre-Mid"]} in
  ∃ semester department r0,
    semester ∈ TARGET_SEMESTERS sample_config
    ∧ department ∈ DEPARTMENTS sample_config
    ∧ (let sem_courses_parsed :=
         parse_ltpsc sample_loader
           (get_semester_courses sample_loader shared_course_catalog
              semester) in
       r0 ∈ rows (session_part PreMid
                    (divide_courses_by_session sample_loader
                       (department_courses sem_courses_parsed department)
                       department sem_courses_parsed)))
    ∧ r = <["Dept_Session" :=
              department +:+ "_" +:+ session_name sample_config PreMid]>
            (<["Semester" := semester]> r0)
    ∧ r !! "Semester" = Some semester
    ∧ r !! "Dept_Session"
      = Some (department +:+ "_" +:+ session_name sample_config PreMid).
Proof.
  intros r.
  apply (aggregated_rows_tagged sample_loader sample_config
           shared_course_catalog PreMid r).
  - exact sample_departments_plain.
  - pose proof shared_course_counted_once as Heq.
    unfold get_all_pre_mid_courses in Heq. rewrite Heq.
    simpl. apply list_elem_of_here.
Defined.

Lemma aggregated_empty_sources_witness :
  get_all_session_courses sample_loader sample_config empty_frame PostMid
  = empty_frame.
Proof.
  apply (aggregated_empty_sources sample_loader sample_config empty_frame
           PostMid).
  intros semester _. left. reflexivity.
Defined.

(** ** From the aggregated table to the course list *)

Lemma dropna_filter_length (l : list (gmap string string)) :
  length (dropna ((λ r : gmap string string, r !! "Course Code") <$> l))
  + length (filter (λ r : gmap string string, r !! "Course Code" = None) l)
  = length l.
Proof.
  induction l as [|r l IH]; [done|].
  rewrite fmap_cons, filter_cons. unfold dropna in *. simpl.
  destruct (r !! "Course Code") as [c|] eqn:Hc; simpl.
  - destruct (decide (Some c = None)); [done|]. f_equal. exact IH.
  - destruct (decide (@None string = None)); [|done]. simpl.
    rewrite Nat.add_succ_r. f_equal. exact IH.
Qed.

(** X12: the defensive second deduplication of [schedule_exams] finds
    nothing to remove in a table an aggregator returned: its course list
    is the shuffled identifier column, without repetition, and it has as
    many courses as the table has rows, not counting the rows without
    an identifier. *)
Theorem scheduled_courses_of_aggregated
    {Dfs : Type} (loader : ExcelLoader Dfs) (config : Config) (dfs : Dfs)
    (s : session) (shuffle : list string → list string) :
  (∀ l, shuffle l ≡ₚ l) →
  has_column "Course Code" (get_all_session_courses loader config dfs s)
  = true →
  let result := get_all_session_courses loader config dfs s in
  course_list_of shuffle result = shuffle (course_codes result)
  ∧ NoDup (course_list_of shuffle result)
  ∧ length (course_list_of shuffle result)
    + length (filter (λ r : gmap string string, r !! "Course Code" = None)
                (rows result))
    = length (rows result).
Proof.
  intros Hperm Hcol result. subst result.
  assert (NoDup (dropna (column "Course Code"
                           (get_all_session_courses loader config dfs s))))
    as Hnd.
  { destruct (aggregated_cases loader config dfs s)
      as [[_ Heq]|[[_ Heq]|[Hno Heq]]]; rewrite Heq in *.
    - constructor.
    - apply NoDup_dropna. unfold column, drop_duplicates. simpl.
      apply keep_first_NoDup.
    - congruence. }
  assert (course_list_of shuffle (get_all_session_courses loader config dfs s)
          = shuffle (course_codes
                       (get_all_session_courses loader config dfs s)))
    as Hlist.
  { unfold course_list_of, course_codes. rewrite Hcol. f_equal.
    apply keep_first_NoDup_id; [done|].
    intros c Hc. by apply elem_of_nil in Hc. }
  split; [done|]. rewrite Hlist. unfold course_codes. rewrite Hcol.
  split; [by rewrite Hperm|].
  rewrite (Permutation_length (Hperm _)).
  apply dropna_filter_length.
Qed.

Lemma scheduled_courses_of_aggregated_witness :
  let result :=
    get_all_session_courses sample_loader sample_config malformed_catalog
      PreMid in
  course_list_of reverse result = reverse (course_codes result)
  ∧ NoDup (course_list_of reverse result)
  ∧ length (course_list_of reverse result)
    + length (filter (λ r : gmap string string, r !! "Course Code" = None)
                (rows result))
    = length (rows result).
Proof.
  apply (scheduled_courses_of_aggregated sample_loader sample_config
           malformed_catalog PreMid reverse).
  - apply reverse_Permutation.
  - reflexivity.
Defined.

(** ** Department cells at the edge *)

Lemma append_line_feed_not_nan (d : string) :
  d +:+ String Regex.LF "" ≠ "nan".
Proof.
  destruct d as [|a [|b [|c [|e d]]]]; simpl; discriminate.
Qed.

(** X13: in a table with a [Department] column, a row whose department cell
    is missing passes the filter of no department: not of any whose
    name is free of metacharacters and is not the text [nan]. *)
Theorem missing_department_excluded
    (department : string) (sem_courses_parsed : DataFrame)
    (r : gmap string string) :
  Regex.plain department →
  department ≠ "nan" →
  has_column "Department" sem_courses_parsed = true →
  r !! "Department" = None →
  dept_mask department r = false
  ∧ r ∉ rows (department_courses sem_courses_parsed department).
Proof.
  intros Hplain Hnan Hcol Hnone.
  assert (dept_mask department r = false) as Hmask.
  { unfold dept_mask. rewrite Hnone. simpl.
    rewrite search_anchored by done.
    apply orb_false_iff. split; apply bool_decide_eq_false_2.
    - congruence.
    - intros Heq. by apply (append_line_feed_not_nan department). }
  split; [done|]. unfold department_courses. rewrite Hcol.
  intros Hin. apply elem_of_select in Hin as [Htrue _]. congruence.
Qed.

Lemma missing_department_excluded_witness :
  dept_mask "CS" {["Course Code" := "MA101"]} = false
  ∧ ({["Course Code" := "MA101"]} : gmap string string)
    ∉ rows (department_courses
              {| columns := ["Course Code"; "Department"];
                 rows := [ {["Course Code" := "MA101"]} ] |} "CS").
Proof.
  apply (missing_department_excluded "CS"
           {| columns := ["Course Code"; "Department"];
              rows := [ {["Course Code" := "MA101"]} ] |}
           {["Course Code" := "MA101"]}).
  - simpl. repeat split; not_listed.
  - discriminate.
  - reflexivity.
  - reflexivity.
Defined.

(** X14: a department cell that is the department name followed by one line
    feed passes the filter of that department, for every name free of
    metacharacters: the [$] of the pattern also holds before a final
    line feed. *)
Theorem trailing_line_feed_accepted
    (department : string) (sem_courses_parsed : DataFrame)
    (r : gmap string string) :
  Regex.plain department →
  has_column "Department" sem_courses_parsed = true →
  r ∈ rows sem_courses_parsed →
  r !! "Department" = Some (department +:+ String Regex.LF "") →
  dept_mask department r = true
  ∧ r ∈ rows (department_courses sem_courses_parsed department).
Proof.
  intros Hplain Hcol Hr Hcell.
  assert (dept_mask department r = true) as Hmask.
  { unfold dept_mask. rewrite Hcell. simpl.
    rewrite search_anchored by done.
    apply orb_true_iff. right. by apply bool_decide_eq_true_2. }
  split; [done|]. unfold department_courses. rewrite Hcol.
  by apply elem_of_select.
Qed.

Lemma trailing_line_feed_accepted_witness :
  let r : gmap string string :=
    {["Course Code" := "MA101";
      "Department" := "EE" +:+ String Regex.LF ""]} in
  dept_mask "EE" r = true
  ∧ r ∈ rows (department_courses
                {| columns := ["Course Code"; "Department"];
                   rows := [r] |} "EE").
Proof.
  intros r.
  apply (trailing_line_feed_accepted "EE"
           {| columns := ["Course Code"; "Department"]; rows := [r] |} r).
  - simpl. repeat split; not_listed.
  - reflexivity.
  - simpl. apply list_elem_of_here.
  - reflexivity.
Defined.

(** ** The dates of the exam sheet *)

Lemma enumerate_lookup {A : Type} (l : list A) (k : nat) (x : A) :
  l !! k = Some x → enumerate l !! k = Some (k, x).
Proof. intros Hx. unfold enumerate. by rewrite list_lookup_imap, Hx. Qed.

Lemma date_state_S (exam_days : list string) (k : nat) (day : string) :
  exam_days !! k = Some day →
  date_state exam_days (S k)
  = date_step exam_days (date_state exam_days k) (k, day).
Proof.
  intros Hday. unfold date_state.
  rewrite (take_S_r _ _ _ (enumerate_lookup _ _ _ Hday)), foldl_app. done.
Qed.

Lemma date_state_full (exam_days : list string) :
  day_to_date exam_days = (date_state exam_days (length exam_days)).1.
Proof.
  unfold day_to_date, date_state. rewrite take_ge; [done|].
  unfold enumerate. by rewrite length_imap.
Qed.

Lemma days_to_add_positive (prev_day : string) (i : nat) :
  1 ≤ days_to_add prev_day i.
Proof.
  unfold days_to_add.
  destruct (decide (prev_day = "Saturday")); [lia|].
  destruct (decide (prev_day = "Friday")); [lia|].
  destruct (bool_decide (prev_day = "Monday") && (1 <? i)); lia.
Qed.

Lemma date_offset_increasing (exam_days : list string) (i j : nat) :
  i < j → date_offset exam_days i < date_offset exam_days j.
Proof.
  induction 1 as [|j _ IH]; simpl;
    pose proof (days_to_add_positive (default "" (exam_days !! i)) (S i));
    [lia|].
  pose proof (days_to_add_positive (default "" (exam_days !! j)) (S j)). lia.
Qed.

(** After the day at position [k] the dictionary has that day's label
    set to the date of position [k], and [current_date] is that date. *)
Lemma date_state_step (exam_days : list string) (k : nat) (day : string) :
  exam_days !! k = Some day →
  date_state exam_days (S k)
  = (<[day := date_offset exam_days k]> (date_state exam_days k).1,
     date_offset exam_days k).
Proof.
  revert day. induction k as [|k IH]; intros day Hday.
  - rewrite (date_state_S _ _ _ Hday). unfold date_state. simpl. done.
  - rewrite (date_state_S _ _ _ Hday).
    destruct (lookup_lt_is_Some_2 exam_days k) as [prev Hprev].
    { apply lookup_lt_Some in Hday. lia. }
    rewrite (IH prev Hprev). unfold date_step. simpl.
    rewrite Nat.sub_0_r, Hprev. done.
Qed.

(** The label of a position keeps the date of the last position that
    carries it. *)
Lemma date_state_lookup (exam_days : list string) (k i : nat) (day : string) :
  k ≤ length exam_days →
  i < k →
  exam_days !! i = Some day →
  ∃ j, i ≤ j ∧ j < k
       ∧ exam_days !! j = Some day
       ∧ (∀ j', j < j' → j' < k → exam_days !! j' ≠ Some day)
       ∧ (date_state exam_days k).1 !! day = Some (date_offset exam_days j).
Proof.
  induction k as [|k IH]; intros Hk Hi Hday; [lia|].
  destruct (lookup_lt_is_Some_2 exam_days k) as [last Hlast]; [lia|].
  rewrite (date_state_step _ _ _ Hlast). simpl.
  destruct (decide (last = day)) as [->|Hne].
  - exists k. split; [lia|]. split; [lia|]. split; [done|].
    split; [intros; lia|]. apply lookup_insert_eq.
  - assert (i < k) as Hik.
    { destruct (decide (i = k)) as [->|]; [congruence|lia]. }
    destruct IH as (j & Hij & Hjk & Hj & Hlater & Hdate); [lia|done|done|].
    exists j. split; [done|]. split; [lia|]. split; [done|].
    split; [|by rewrite lookup_insert_ne].
    intros j' Hjj' Hj'k. destruct (decide (j' = k)) as [->|].
    + congruence.
    + apply Hlater; lia.
Qed.

(** X15: the date the sheet shows under a day is read by the day's label: it
    is the date computed for the last position that carries the label.
    Dates grow from position to position, so a day whose label comes
    again later is shown with the later date, and only a day whose label
    does not come again is shown with its own. *)
Theorem sheet_date_of_last_label
    (exam_days : list string) (i : nat) (day : string) :
  exam_days !! i = Some day →
  ∃ j, i ≤ j
       ∧ exam_days !! j = Some day
       ∧ (∀ j', j < j' → exam_days !! j' ≠ Some day)
       ∧ date_row exam_days !! (S i)
         = Some (strftime (date_offset exam_days j))
       ∧ (i < j → date_offset exam_days i < date_offset exam_days j)
       ∧ ((∀ j', i < j' → exam_days !! j' ≠ Some day) → j = i).
Proof.
  intros Hday.
  assert (i < length exam_days) as Hi by (by eapply lookup_lt_Some).
  destruct (date_state_lookup exam_days (length exam_days) i day)
    as (j & Hij & Hj & Hjday & Hlater & Hdate); [done|done|done|].
  exists j. split; [done|]. split; [done|].
  split.
  { intros j' Hjj' Hj'. apply (Hlater j' Hjj'); [|done].
    by eapply lookup_lt_Some. }
  split.
  { unfold date_row. simpl. rewrite list_lookup_fmap, Hday. simpl.
    by rewrite date_state_full, Hdate. }
  split; [apply date_offset_increasing|].
  intros Hnone. destruct (decide (j = i)) as [|Hne]; [done|].
  exfalso. apply (Hnone j); [lia|done].
Qed.

Lemma sheet_date_of_last_label_witness :
  ∃ j, 1 ≤ j
       ∧ all_exam_days !! j = Some "Monday"
       ∧ (∀ j', j < j' → all_exam_days !! j' ≠ Some "Monday")
       ∧ date_row all_exam_days !! 2
         = Some (strftime (date_offset all_exam_days j))
       ∧ (1 < j → date_offset all_exam_days 1 < date_offset all_exam_days j)
       ∧ ((∀ j', 1 < j' → all_exam_days !! j' ≠ Some "Monday") → j = 1).
Proof.
  apply (sheet_date_of_last_label all_exam_days 1 "Monday").
  reflexivity.
Defined.

(** The date row of the seven-day sheet: both Mondays carry the date of
    the second one, 29 September, and the first Monday's own date, the
    22nd, is not shown. *)
Lemma seven_day_date_row :
  date_row all_exam_days
  = [""; "20-09-2025"; "29-09-2025"; "23-09-2025"; "24-09-2025";
     "25-09-2025"; "26-09-2025"; "29-09-2025"]
  ∧ strftime (date_offset all_exam_days 1) = "22-09-2025".
Proof. by vm_compute. Qed.

(** ** The layout of the exam sheet *)









(** ** The sheet written for a session *)

Lemma frame_of_session_data_not_empty (schedule : gmap string (list string)) :
  is_empty (frame_of_data (session_data all_exam_days schedule)) = false.
Proof. by rewrite session_data_all_exam_days. Qed.

(** X17: for a session the export never fails on the way to the sheet.  A
    table without any identifier gets the placeholder, a frame of no row
    whose seven columns are the day labels, ["Monday"] among them twice;
    any other table gets the formatted sheet of its schedule for seven
    days. *)
Theorem session_sheet_cases
    (shuffle : list string → list string) (courses : DataFrame) :
  (∀ l, shuffle l ≡ₚ l) →
  (course_codes courses = [] →
     session_sheet shuffle courses
     = Returns {| columns := all_exam_days; rows := [] |})
  ∧ (course_codes courses ≠ [] →
       ∃ fn_df an_df,
         schedule_exams shuffle courses 7 = Returns (fn_df, an_df)
         ∧ session_sheet shuffle courses
           = Returns (_create_exam_sheet fn_df an_df all_exam_days))
  ∧ ∃ sheet, session_sheet shuffle courses = Returns sheet.
Proof.
  intros Hperm.
  assert (course_codes courses = [] →
            session_sheet shuffle courses
            = Returns {| columns := all_exam_days; rows := [] |}) as Hnone.
  { intros Hc. unfold session_sheet.
    by rewrite schedule_exams_no_codes. }
  assert (course_codes courses ≠ [] →
            ∃ fn_df an_df,
              schedule_exams shuffle courses 7 = Returns (fn_df, an_df)
              ∧ session_sheet shuffle courses
                = Returns (_create_exam_sheet fn_df an_df all_exam_days))
    as Hsome.
  { intros Hc. unfold session_sheet.
    destruct (schedule_exams_codes shuffle Hperm courses 7 Hc) as [_ ->].
    change (slice_to 7 all_exam_days) with all_exam_days.
    destruct (distribute_distributed (course_list_of shuffle courses)
                all_exam_days) as (st & -> & _); [simpl; lia|].
    eexists _, _. split; [done|].
    by rewrite !frame_of_session_data_not_empty. }
  split; [done|]. split; [done|].
  destruct (decide (course_codes courses = [])) as [Hc|Hc].
  - eexists. by apply Hnone.
  - destruct (Hsome Hc) as (fn_df & an_df & _ & ->). by eexists.
Qed.

Lemma session_sheet_cases_witness :
  (course_codes (frame_of_codes seven_codes) = [] →
     session_sheet reverse (frame_of_codes seven_codes)
     = Returns {| columns := all_exam_days; rows := [] |})
  ∧ (course_codes (frame_of_codes seven_codes) ≠ [] →
       ∃ fn_df an_df,
         schedule_exams reverse (frame_of_codes seven_codes) 7
         = Returns (fn_df, an_df)
         ∧ session_sheet reverse (frame_of_codes seven_codes)
           = Returns (_create_exam_sheet fn_df an_df all_exam_days))
  ∧ ∃ sheet, session_sheet reverse (frame_of_codes seven_codes)
             = Returns sheet.
Proof.
  apply (session_sheet_cases reverse (frame_of_codes seven_codes)).
  apply reverse_Permutation.
Defined.
